(** * The agent control loops of [app.py] and [cli.py]

    Both programs drive a language model through a PLAN / TOOL / OUTPUT
    protocol: [run_agent] appends the user's request to the process-wide
    [message_history], then loops: call the model, append its reply, decode
    the reply with [json.loads], and act on the value of its [step] field.

    The embedding is shallow.  The interpreter state the programs mutate
    ([message_history]) and the effects they perform (requests to the model,
    [print], [time.sleep]) are threaded explicitly through a small monad.
    What the outside answers (the model service, the network, the shell, the
    file system) and what the library functions the programs do not define
    compute ([json.loads], [os.path.dirname]) is read from a script: a list
    with one entry per loop iteration.

    Conventions.  A Python [str] is a Rocq [string], one character per code
    point (code points below 256; the pictograms of the progress messages are
    kept as the bytes of the source file).  A value produced by [json.loads]
    is a [value].  An exception raised by an external call is identified
    with the text of [str(e)], which is all the handlers of the programs
    read. *)

From Stdlib Require Import String Ascii List ZArith Bool Lia DecimalString.
Import ListNotations.

Local Open Scope string_scope.
Local Open Scope list_scope.

(** ** Python strings *)

Module PyStr.

Definition dq : string := String "034"%char EmptyString.
Definition nl : string := String "010"%char EmptyString.

Definition unlines (ls : list string) : string :=
  fold_right (fun l acc => (l ++ nl ++ acc)%string) EmptyString ls.

Definition code (c : ascii) : N := N_of_ascii c.

(** [str.isspace] on one character. *)
Definition isspace (c : ascii) : bool :=
  let n := code c in
  ((9 <=? n) && (n <=? 13) || (28 <=? n) && (n <=? 32)
   || (n =? 133) || (n =? 160))%N.

Fixpoint lstrip (s : string) : string :=
  match s with
  | EmptyString => EmptyString
  | String c s' => if isspace c then lstrip s' else s
  end.

Fixpoint rstrip (s : string) : string :=
  match s with
  | EmptyString => EmptyString
  | String c s' =>
      match rstrip s' with
      | EmptyString => if isspace c then EmptyString else String c EmptyString
      | r => String c r
      end
  end.

(** [s.strip()] *)
Definition strip (s : string) : string := rstrip (lstrip s).

Definition lower_char (c : ascii) : ascii :=
  let n := code c in
  if ((65 <=? n) && (n <=? 90)
      || (192 <=? n) && (n <=? 222) && negb (n =? 215))%N
  then ascii_of_N (n + 32) else c.

(** [s.lower()] *)
Fixpoint lower (s : string) : string :=
  match s with
  | EmptyString => EmptyString
  | String c s' => String (lower_char c) (lower s')
  end.

(** [sub in s] *)
Fixpoint contains (sub s : string) : bool :=
  String.prefix sub s
  || match s with
     | EmptyString => false
     | String _ s' => contains sub s'
     end.

(** Truth value of a string: [if s]. *)
Definition truthy (s : string) : bool :=
  match s with EmptyString => false | _ => true end.

(** [s[:n]] *)
Definition take (n : nat) (s : string) : string := String.substring 0 n s.

Definition hex_digit (n : N) : ascii :=
  if (n <? 10)%N then ascii_of_N (48 + n) else ascii_of_N (87 + n).

(** The JSON escape of one character, as [json.dumps] writes it with its
    default [ensure_ascii=True]. *)
Definition escape_char (c : ascii) : string :=
  let n := code c in
  if (n =? 34)%N then "\" ++ dq
  else if (n =? 92)%N then "\\"
  else if (n =? 10)%N then "\n"
  else if (n =? 13)%N then "\r"
  else if (n =? 9)%N then "\t"
  else if (n =? 8)%N then "\b"
  else if (n =? 12)%N then "\f"
  else if ((32 <=? n) && (n <=? 126))%N then String c EmptyString
  else "\u00" ++ String (hex_digit (n / 16)) (String (hex_digit (n mod 16)) EmptyString).

Fixpoint escape (s : string) : string :=
  match s with
  | EmptyString => EmptyString
  | String c s' => escape_char c ++ escape s'
  end.

(** [json.dumps(s)] for a [str]. *)
Definition quoted (s : string) : string := dq ++ escape s ++ dq.

End PyStr.

(** ** Python values *)

(** What [json.loads] returns. A float keeps the text it was read from. *)
#[local] Unset Elimination Schemes.
Inductive value : Type :=
| VNone
| VBool (b : bool)
| VInt (z : Z)
| VFloat (lexeme : string)
| VStr (s : string)
| VList (items : list value)
| VDict (entries : list (string * value)).
#[local] Set Elimination Schemes.

(** [type(v).__name__] *)
Definition type_name (v : value) : string :=
  match v with
  | VNone => "NoneType"
  | VBool _ => "bool"
  | VInt _ => "int"
  | VFloat _ => "float"
  | VStr _ => "str"
  | VList _ => "list"
  | VDict _ => "dict"
  end.

(** [d.get(key)] on a dict: the value, or None when the key is absent. *)
Fixpoint dict_get (d : list (string * value)) (key : string) : value :=
  match d with
  | [] => VNone
  | (k, v) :: d' => if String.eqb k key then v else dict_get d' key
  end.

(** [v == s] for a string literal [s]. *)
Definition eq_str (v : value) (s : string) : bool :=
  match v with
  | VStr t => String.eqb t s
  | _ => false
  end.

(** [json.dumps(v)] with the default separators and [ensure_ascii=True].
    A float is written as the text it was read from. *)
Fixpoint json_dumps (v : value) : string :=
  match v with
  | VNone => "null"
  | VBool true => "true"
  | VBool false => "false"
  | VInt z => NilZero.string_of_int (Z.to_int z)
  | VFloat lexeme => lexeme
  | VStr s => PyStr.quoted s
  | VList items =>
      ("[" ++ (fix elems (l : list value) : string :=
                match l with
                | [] => EmptyString
                | x :: r =>
                    match r with
                    | [] => json_dumps x
                    | _ => (json_dumps x ++ ", " ++ elems r)%string
                    end
                end) items ++ "]")%string
  | VDict entries =>
      ("{" ++ (fix members (l : list (string * value)) : string :=
                match l with
                | [] => EmptyString
                | (k, x) :: r =>
                    match r with
                    | [] => (PyStr.quoted k ++ ": " ++ json_dumps x)%string
                    | _ => (PyStr.quoted k ++ ": " ++ json_dumps x ++ ", " ++ members r)%string
                    end
                end) entries ++ "}")%string
  end.

(** ** Calls that may raise *)

(** The result of a call that returns or raises; the exception is kept as
    [str(e)]. *)
Inductive io (A : Type) : Type :=
| Returns (a : A)
| Raises (str_e : string).
Arguments Returns {A} a.
Arguments Raises {A} str_e.

Definition io_bind {A B : Type} (m : io A) (k : A -> io B) : io B :=
  match m with
  | Returns a => k a
  | Raises e => Raises e
  end.

(** [try: body  except Exception as e: handler(e)] *)
Definition try_except {A : Type} (body : io A) (handler : string -> io A) : io A :=
  match body with
  | Returns a => Returns a
  | Raises e => handler e
  end.

Declare Scope io_scope.
Delimit Scope io_scope with io.
Notation "x <- m ;; k" := (io_bind m (fun x => k))
  (at level 61, m at next level, right associativity) : io_scope.
Notation "m ;; k" := (io_bind m (fun _ => k))
  (at level 61, right associativity) : io_scope.

(** ** The outside world *)

(** [requests.get(url, timeout=5)]: the fields of the response the program reads. *)
Record response : Type := { status_code : Z; text : string }.

(** [subprocess.run(cmd, shell=True, capture_output=True, text=True)] *)
Record completed_process : Type := { stdout : string; stderr : string }.

(** What the library and the operating system answer during one iteration of
    the agent loop. *)
Record world : Type := {
  json_loads : string -> io value;
  requests_get : string -> io response;
  subprocess_run : value -> io completed_process;
  os_path_dirname : string -> string;
  os_makedirs : string -> io unit;
  (** [with open(filename, "w", encoding="utf-8") as f: f.write(content)] *)
  open_write : string -> value -> io unit;
  (** [with open(filename, "r", encoding="utf-8") as f: return f.read()] *)
  open_read : value -> io string
}.

(** ** Conversation memory, effects, exceptions *)

Record message : Type := { role : string; content : string }.

Record request : Type := {
  model : string;
  messages : list message;
  temperature : string;
  response_format : string
}.

(** The argument of a [print] call: a string, an object, or an f-string. *)
Inductive printed : Type :=
| Str (s : string)
| Obj (v : value)
| FString (parts : list (string + value)).

Inductive effect : Type :=
| Create (req : request)
| Print (args : list printed)
| Sleep (seconds : Z)
| Input (prompt : string).

(** Exceptions that leave a loop. *)
Inductive exn : Type :=
| AttributeError (obj : value) (attr : string)
| KeyError (key : value)
| TypeError (msg : string)
| ServiceError (str_e : string)
| ToolError (str_e : string)
| InputError (str_e : string).

Record state : Type := {
  message_history : list message;
  trace : list effect
}.

Inductive outcome (A : Type) : Type :=
| Returned (a : A) (st : state)
| Raised (e : exn) (st : state)
| Pending (st : state).
Arguments Returned {A} a st.
Arguments Raised {A} e st.
Arguments Pending {A} st.

Definition state_of {A : Type} (o : outcome A) : state :=
  match o with
  | Returned _ st | Raised _ st | Pending st => st
  end.

(** A command: state in, outcome out.  [Pending] means the script has no
    answer left for the call the program is blocked on. *)
Definition M (A : Type) : Type := state -> outcome A.

Definition ret {A : Type} (a : A) : M A := fun st => Returned a st.

Definition bind {A B : Type} (m : M A) (k : A -> M B) : M B :=
  fun st =>
    match m st with
    | Returned a st' => k a st'
    | Raised e st' => Raised e st'
    | Pending st' => Pending st'
    end.

Definition raise {A : Type} (e : exn) : M A := fun st => Raised e st.

Definition wait {A : Type} : M A := fun st => Pending st.

Declare Scope agent_scope.
Delimit Scope agent_scope with agent.
Notation "x <- m ;; k" := (bind m (fun x => k))
  (at level 61, m at next level, right associativity) : agent_scope.
Notation "m ;; k" := (bind m (fun _ => k))
  (at level 61, right associativity) : agent_scope.

(** The current value of the global [message_history]. *)
Definition history (st : state) : list message := message_history st.

Definition log (ev : effect) (st : state) : state :=
  {| message_history := message_history st; trace := trace st ++ [ev] |}.

Definition push (m : message) (st : state) : state :=
  {| message_history := message_history st ++ [m]; trace := trace st |}.

Definition emit (ev : effect) : M unit := fun st => Returned tt (log ev st).

Definition print (args : list printed) : M unit := emit (Print args).

Definition time_sleep (seconds : Z) : M unit := emit (Sleep seconds).

(** [message_history.append(m)] *)
Definition append (m : message) : M unit := fun st => Returned tt (push m st).

Definition get_history : M (list message) :=
  fun st => Returned (message_history st) st.

(** A call whose answer the script holds: the exception, if any, leaves as [wrap e]. *)
Definition lift {A : Type} (wrap : string -> exn) (r : io A) : M A :=
  match r with
  | Returns a => ret a
  | Raises e => raise (wrap e)
  end.

Inductive ctl : Type := Continue | Break.

(** [while True: body], one script entry per iteration. *)
Fixpoint while_true {T : Type} (body : T -> M ctl) (script : list T) : M unit :=
  fun st =>
    match script with
    | [] => Pending st
    | t :: rest =>
        match body t st with
        | Returned Continue st' => while_true body rest st'
        | Returned Break st' => Returned tt st'
        | Raised e st' => Raised e st'
        | Pending st' => Pending st'
        end
    end.

(** [tools[tool_name]]: a key that is not hashable is a TypeError, a key that
    is not in the dict a KeyError. *)
Definition subscript_tools {F : Type} (tools : list (string * F)) (tool_name : value) : M F :=
  match tool_name with
  | VList _ | VDict _ =>
      raise (TypeError ("unhashable type: '" ++ type_name tool_name ++ "'"))
  | VStr name =>
      match find (fun kf => String.eqb (fst kf) name) tools with
      | Some kf => ret (snd kf)
      | None => raise (KeyError tool_name)
      end
  | _ => raise (KeyError tool_name)
  end.

(** [obj.get(key)]: only a dict has the method. *)
Definition get (obj : value) (key : string) : M value :=
  match obj with
  | VDict d => ret (dict_get d key)
  | _ => raise (AttributeError obj "get")
  end.

(** ** Reading one iteration *)

(** What an iteration makes of the model's reply. *)
Inductive verdict : Type :=
| NoReply
| Undecodable (raw : string)
| NotObject (raw : string) (v : value)
| Decoded (raw : string) (step : list (string * value)).

Definition classify (w : world) (raw : string) : verdict :=
  match json_loads w raw with
  | Raises _ => Undecodable raw
  | Returns (VDict step) => Decoded raw step
  | Returns v => NotObject raw v
  end.

(** [tool_name in tools] *)
Definition registered {F : Type} (tools : list (string * F)) (tool_name : value) : bool :=
  match tool_name with
  | VStr name => existsb (fun kf => String.eqb (fst kf) name) tools
  | _ => false
  end.

(** The [step] field of a decoded reply is the literal [kind]. *)
Definition step_is (kind : string) (v : verdict) : bool :=
  match v with
  | Decoded _ step => eq_str (dict_get step "step") kind
  | _ => false
  end.

(** The reply is a dict whose [step] is none of PLAN, TOOL, OUTPUT (or is absent). *)
Definition unrecognized (v : verdict) : bool :=
  match v with
  | Decoded _ step =>
      negb (eq_str (dict_get step "step") "PLAN")
      && negb (eq_str (dict_get step "step") "TOOL")
      && negb (eq_str (dict_get step "step") "OUTPUT")
  | _ => false
  end.

(** The reply is a TOOL step that names a registered tool. *)
Definition dispatches {F : Type} (tools : list (string * F)) (v : verdict) : bool :=
  match v with
  | Decoded _ step =>
      eq_str (dict_get step "step") "TOOL" && registered tools (dict_get step "tool")
  | _ => false
  end.

(** The iterations after which the loop calls the model again. *)
Definition goes_on {F : Type} (tools : list (string * F)) (v : verdict) : bool :=
  match v with
  | Undecodable _ => true
  | _ => step_is "PLAN" v || dispatches tools v || unrecognized v
  end.

(** The exception of [tools[tool_name]] for a name that is not registered. *)
Definition dispatch_error (tool_name : value) : exn :=
  match tool_name with
  | VList _ | VDict _ => TypeError ("unhashable type: '" ++ type_name tool_name ++ "'")
  | _ => KeyError tool_name
  end.

(** How an iteration leaves the loop body, if it does so normally. *)
Definition ctl_of (o : outcome ctl) : option ctl :=
  match o with
  | Returned c _ => Some c
  | _ => None
  end.

Definition assistant (raw : string) : message :=
  {| role := "assistant"; content := raw |}.

(** The message that carries an observation back to the model. *)
Definition observation (tool_name : value) (result : string) : message :=
  {| role := "developer";
     content := json_dumps (VDict [ ("step", VStr "OBSERVE");
                                    ("tool", tool_name);
                                    ("output", VStr result) ]) |}.

(** * app.py: the weather agent *)

Module App.

Import PyStr.

Definition SELECTED_MODEL : string := "Llama-3.3-Swallow-70B-Instruct-v0.4".

Definition SYSTEM_PROMPT : string :=
  unlines
    [ EmptyString;
      "You are an AI Weather Agent.";
      EmptyString;
      "Follow START → PLAN → TOOL → OUTPUT steps.";
      EmptyString;
      "Strict rules:";
      "- Always return ONLY valid JSON";
      "- No extra text";
      "- One step at a time";
      EmptyString;
      "JSON format:";
      "{";
      " " ++ dq ++ "step" ++ dq ++ ": " ++ dq ++ "PLAN" ++ dq ++ " | "
          ++ dq ++ "TOOL" ++ dq ++ " | " ++ dq ++ "OUTPUT" ++ dq ++ ",";
      " " ++ dq ++ "content" ++ dq ++ ": " ++ dq ++ "string" ++ dq ++ ",";
      " " ++ dq ++ "tool" ++ dq ++ ": " ++ dq ++ "string" ++ dq ++ ",";
      " " ++ dq ++ "input" ++ dq ++ ": " ++ dq ++ "string" ++ dq;
      "}";
      EmptyString;
      "Available tools:";
      "- get_weather(city:str)" ]%string.

(** ** The tool *)

(** The receiver of a [str] method: an AttributeError unless it is a [str]. *)
Definition str_method (obj : value) (attr : string) : io string :=
  match obj with
  | VStr s => Returns s
  | _ => Raises ("'" ++ type_name obj ++ "' object has no attribute '" ++ attr ++ "'")
  end.

Definition get_weather (w : world) (city : value) : io string :=
  try_except
    (city <- str_method city "lower" ;;
     let url := ("https://wttr.in/" ++ lower city ++ "?format=%C+%t")%string in
     r <- requests_get w url ;;
     if (status_code r =? 200)%Z
     then Returns ("The weather in " ++ city ++ " is " ++ text r)%string
     else Returns "Weather service unavailable")%io
    (fun _ => Returns "Weather API error").

Definition tools : list (string * (world -> value -> io string)) :=
  [ ("get_weather", get_weather) ].

(** ** Memory *)

Definition message_history : list message :=
  [ {| role := "system"; content := SYSTEM_PROMPT |} ].

Definition initial : state :=
  Build_state message_history [].

(** ** The agent loop *)

(** One iteration's script: what [client.chat.completions.create] answers
    (the content of the reply, or the exception) and the world as it is
    while the iteration runs. *)
Record turn : Type := { created : io string; env : world }.

(** The arguments of [client.chat.completions.create]. *)
Definition request (h : list message) : request :=
  {| model := SELECTED_MODEL;
     messages := h;
     temperature := "0.3";
     response_format := "json_object" |}.

Definition create (t : turn) : M string :=
  (h <- get_history ;;
   emit (Create (request h)) ;;
   lift ServiceError (created t))%agent.

Definition body (t : turn) : M ctl :=
  (content <- create t ;;
   let raw := strip content in
   append {| role := "assistant"; content := raw |} ;;
   match json_loads (env t) raw with
   | Raises _ =>
       print [Str "⚠️ Invalid JSON from model, retrying..."] ;;
       print [Str "RAW:"; Obj (VStr raw)] ;;
       ret Continue
   | Returns step =>
       step_type <- get step "step" ;;
       if eq_str step_type "PLAN" then
         c <- get step "content" ;;
         print [Str "🧠"; Obj c] ;;
         ret Continue
       else if eq_str step_type "TOOL" then
         tool_name <- get step "tool" ;;
         tool_input <- get step "input" ;;
         print [FString [inl "🔧 Calling "; inr tool_name; inl "(";
                         inr tool_input; inl ")"]] ;;
         f <- subscript_tools tools tool_name ;;
         result <- lift ToolError (f (env t) tool_input) ;;
         print [Str "📡 Tool result:"; Obj (VStr result)] ;;
         append {| role := "developer";
                   content := json_dumps (VDict [ ("step", VStr "OBSERVE");
                                                  ("tool", tool_name);
                                                  ("output", VStr result) ]) |} ;;
         ret Continue
       else if eq_str step_type "OUTPUT" then
         c <- get step "content" ;;
         print [Str (nl ++ "🌤️ Weather Agent:"); Obj c; Str nl] ;;
         ret Break
       else ret Continue
   end)%agent.

(** [run_agent(user_query)]; falling off the end returns None. *)
Definition run_agent (user_query : string) (script : list turn) : M value :=
  (append {| role := "user"; content := user_query |} ;;
   while_true body script ;;
   ret VNone)%agent.

(** One turn of [main]: the line [input] reads (or its exception) and
    the script of the run it starts. *)
Definition main_body (entry : io string * list turn) : M ctl :=
  (emit (Input "You: ") ;;
   q <- lift InputError (fst entry) ;;
   if String.eqb (lower q) "exit" then
     print [Str "👋 Bye!"] ;;
     ret Break
   else
     run_agent q (snd entry) ;;
     ret Continue)%agent.

Definition main (session : list (io string * list turn)) : M value :=
  (print [Str ("🌦️ Weather Agent Ready (type 'exit')" ++ nl)] ;;
   while_true main_body session ;;
   ret VNone)%agent.

(** What the iteration scripted by [t] decodes. *)
Definition decode (t : turn) : verdict :=
  match created t with
  | Returns reply => classify (env t) (strip reply)
  | Raises _ => NoReply
  end.

(** The state once the request is sent. *)
Definition called (st : state) : state :=
  log (Create (request (history st))) st.

(** The state once the reply [raw] is recorded. *)
Definition replied (raw : string) (st : state) : state :=
  push (assistant raw) (called st).

(** The notice printed before a tool is looked up. *)
Definition calling (step : list (string * value)) : effect :=
  Print [FString [inl "🔧 Calling "; inr (dict_get step "tool"); inl "(";
                  inr (dict_get step "input"); inl ")"]].

End App.

(** * cli.py: the coding agent *)

Module Cli.

Import PyStr.

Definition MODEL : string := "Llama-3.3-Swallow-70B-Instruct-v0.4".

Definition SYSTEM_PROMPT : string :=
  unlines
    [ EmptyString;
      "You are an autonomous CLI Coding Agent.";
      EmptyString;
      "Your goal:";
      "Help user by creating files, writing code and executing commands.";
      EmptyString;
      "Follow steps:";
      "PLAN → TOOL → OUTPUT";
      EmptyString;
      "Rules:";
      "- ALWAYS return ONLY JSON";
      "- One step at a time";
      "- NEVER use shell tricks like echo/touch/cat";
      "- Use write_file tool to create files";
      EmptyString;
      "JSON format:";
      "{";
      " " ++ dq ++ "step" ++ dq ++ ":" ++ dq ++ "PLAN" ++ dq ++ " | "
          ++ dq ++ "TOOL" ++ dq ++ " | " ++ dq ++ "OUTPUT" ++ dq ++ ",";
      " " ++ dq ++ "content" ++ dq ++ ":" ++ dq ++ "string" ++ dq ++ ",";
      " " ++ dq ++ "tool" ++ dq ++ ":" ++ dq ++ "string" ++ dq ++ ",";
      " " ++ dq ++ "input" ++ dq ++ ":" ++ dq ++ "string" ++ dq;
      "}";
      EmptyString;
      "Available tools:";
      EmptyString;
      "run_command:";
      "  input -> command string";
      EmptyString;
      "write_file:";
      "  input -> JSON string:";
      "  {" ++ dq ++ "filename" ++ dq ++ ":" ++ dq ++ "file.py" ++ dq ++ ","
           ++ dq ++ "content" ++ dq ++ ":" ++ dq ++ "code" ++ dq ++ "}";
      EmptyString;
      "read_file:";
      "  input -> filename string" ]%string.

(** ** Tools *)

Definition run_command (w : world) (cmd : value) : io string :=
  try_except
    (result <- subprocess_run w cmd ;;
     let output := if truthy (stdout result) then stdout result else stderr result in
     Returns (if truthy output then strip output else "Done."))%io
    (fun e => Returns e).

(** [json.loads(payload)]: a TypeError unless [payload] is a [str]. *)
Definition loads (w : world) (payload : value) : io value :=
  match payload with
  | VStr s => json_loads w s
  | _ => Raises ("the JSON object must be str, bytes or bytearray, not "
                 ++ type_name payload)
  end.

(** [data[key]] for a string literal [key]. *)
Definition subscript (data : value) (key : string) : io value :=
  match data with
  | VDict d =>
      match find (fun kv => String.eqb (fst kv) key) d with
      | Some kv => Returns (snd kv)
      | None => Raises ("'" ++ key ++ "'")
      end
  | VList _ => Raises "list indices must be integers or slices, not str"
  | VStr _ => Raises "string indices must be integers, not 'str'"
  | _ => Raises ("'" ++ type_name data ++ "' object is not subscriptable")
  end.

(** The path argument of [os.path.dirname] and [open]: a [str] here. *)
Definition fspath (p : value) : io string :=
  match p with
  | VStr s => Returns s
  | _ => Raises ("expected str, bytes or os.PathLike object, not " ++ type_name p)
  end.

Definition write_file (w : world) (payload : value) : io string :=
  try_except
    (data <- loads w payload ;;
     filename <- subscript data "filename" ;;
     content <- subscript data "content" ;;
     path <- fspath filename ;;
     let dir := os_path_dirname w path in
     os_makedirs w (if truthy dir then dir else ".") ;;
     open_write w path content ;;
     Returns (path ++ " written successfully")%string)%io
    (fun e => Returns ("Write error: " ++ e)%string).

Definition read_file (w : world) (filename : value) : io string :=
  try_except
    (open_read w filename)
    (fun e => Returns ("Read error: " ++ e)%string).

Definition tools : list (string * (world -> value -> io string)) :=
  [ ("run_command", run_command);
    ("write_file", write_file);
    ("read_file", read_file) ].

(** ** Memory *)

Definition message_history : list message :=
  [ {| role := "system"; content := SYSTEM_PROMPT |} ].

Definition initial : state := Build_state message_history [].

(** ** The model call *)

(** One iteration's script: what the successive calls of
    [client.chat.completions.create] answer, and the world as it is while
    the iteration runs. *)
Record turn : Type := { attempts : list (io string); env : world }.

(** The arguments of [client.chat.completions.create]. *)
Definition request (h : list message) : request :=
  {| model := MODEL;
     messages := h;
     temperature := "0.2";
     response_format := "json_object" |}.

(** [safe_llm_call()]: one script entry per call of [create]. *)
Fixpoint safe_llm_call (answers : list (io string)) : M string :=
  match answers with
  | [] => wait
  | answer :: rest =>
      (h <- get_history ;;
       emit (Create (request h)) ;;
       match answer with
       | Returns reply => ret reply
       | Raises e =>
           if contains "429" e then
             print [Str "⏳ Rate limit hit… waiting 5s"] ;;
             time_sleep 5 ;;
             safe_llm_call rest
           else raise (ServiceError e)
       end)%agent
  end.

(** ** The agent loop *)

Definition body (t : turn) : M ctl :=
  (content <- safe_llm_call (attempts t) ;;
   let raw := strip content in
   append {| role := "assistant"; content := raw |} ;;
   match json_loads (env t) raw with
   | Raises _ =>
       print [Str "⚠️ Invalid JSON, retrying..."] ;;
       ret Continue
   | Returns step =>
       step_type <- get step "step" ;;
       if eq_str step_type "PLAN" then
         c <- get step "content" ;;
         print [Str "🧠"; Obj c] ;;
         ret Continue
       else if eq_str step_type "TOOL" then
         tool_name <- get step "tool" ;;
         tool_input <- get step "input" ;;
         print [FString [inl "🔧 "; inr tool_name]] ;;
         f <- subscript_tools tools tool_name ;;
         result <- lift ToolError (f (env t) tool_input) ;;
         print [Str ("📡 Result:" ++ nl); Obj (VStr (take 600 result))] ;;
         append {| role := "developer";
                   content := json_dumps (VDict [ ("step", VStr "OBSERVE");
                                                  ("tool", tool_name);
                                                  ("output", VStr result) ]) |} ;;
         ret Continue
       else if eq_str step_type "OUTPUT" then
         c <- get step "content" ;;
         print [Str (nl ++ "🤖 Agent:"); Obj c; Str nl] ;;
         ret Break
       else ret Continue
   end)%agent.

Definition run_agent (user_query : string) (script : list turn) : M value :=
  (append {| role := "user"; content := user_query |} ;;
   while_true body script ;;
   ret VNone)%agent.

Definition main_body (entry : io string * list turn) : M ctl :=
  (emit (Input "You: ") ;;
   user <- lift InputError (fst entry) ;;
   if String.eqb (lower user) "exit" then
     print [Str "👋 Bye Rohit!"] ;;
     ret Break
   else
     run_agent user (snd entry) ;;
     ret Continue)%agent.

Definition main (session : list (io string * list turn)) : M value :=
  (print [Str ("💻 Coding Agent V2 Ready (type 'exit')" ++ nl)] ;;
   while_true main_body session ;;
   ret VNone)%agent.

(** The answer [safe_llm_call] ends on: the first that is not a rate-limit
    failure, if the script holds one. *)
Fixpoint settled (answers : list (io string)) : option (io string) :=
  match answers with
  | [] => None
  | Returns reply :: _ => Some (Returns reply)
  | Raises e :: rest => if contains "429" e then settled rest else Some (Raises e)
  end.

(** What the iteration scripted by [t] decodes. *)
Definition decode (t : turn) : verdict :=
  match settled (attempts t) with
  | Some (Returns reply) => classify (env t) (strip reply)
  | _ => NoReply
  end.

(** The state [safe_llm_call] leaves: one request per answer read, and a
    notice and a sleep after each rate-limit failure. *)
Fixpoint called (answers : list (io string)) (st : state) : state :=
  match answers with
  | [] => st
  | answer :: rest =>
      let st1 := log (Create (request (history st))) st in
      match answer with
      | Returns _ => st1
      | Raises e =>
          if contains "429" e then
            called rest (log (Sleep 5)
                           (log (Print [Str "⏳ Rate limit hit… waiting 5s"]) st1))
          else st1
      end
  end.

(** The state once the reply [raw] is recorded. *)
Definition replied (raw : string) (t : turn) (st : state) : state :=
  push (assistant raw) (called (attempts t) st).

(** The notice printed before a tool is looked up. *)
Definition calling (step : list (string * value)) : effect :=
  Print [FString [inl "🔧 "; inr (dict_get step "tool")]].

End Cli.

(** * Reading a run *)

(** The number of requests sent to the model service. *)
Definition requests (tr : list effect) : nat :=
  length (filter (fun ev => match ev with Create _ => true | _ => false end) tr).

(** The seconds slept, in order. *)
Definition sleeps (tr : list effect) : list Z :=
  flat_map (fun ev => match ev with Sleep s => [s] | _ => [] end) tr.

(** The number of observation carriers in memory. *)
Definition carriers (h : list message) : nat :=
  length (filter (fun m => String.eqb (role m) "developer") h).

(** What one rate-limited attempt of [Cli.safe_llm_call] leaves in the trace. *)
Definition backoff (h : list message) : list effect :=
  [ Create (Cli.request h);
    Print [Str "⏳ Rate limit hit… waiting 5s"];
    Sleep 5 ].

(** The state after [n] rate-limited attempts made from [st]. *)
Definition waited (n : nat) (st : state) : state :=
  {| message_history := message_history st;
     trace := trace st ++ concat (repeat (backoff (message_history st)) n) |}.

(** [st'] is [st] with messages appended, none of them a system message. *)
Definition extends (st st' : state) : Prop :=
  exists suffix,
    message_history st' = message_history st ++ suffix /\
    Forall (fun m => role m <> "system") suffix.

(** Memory that begins with the one system message [sys]. *)
Definition one_system_message (sys : message) (h : list message) : Prop :=
  exists rest, h = sys :: rest /\ role sys = "system" /\
               Forall (fun m => role m <> "system") rest.

(** ** Sample replies and worlds *)

Module Sample.

Definition plan : value :=
  VDict [ ("step", VStr "PLAN"); ("content", VStr "Look up the weather in Paris") ].

Definition weather : value :=
  VDict [ ("step", VStr "TOOL"); ("tool", VStr "get_weather"); ("input", VStr "Paris") ].

Definition weather_no_input : value :=
  VDict [ ("step", VStr "TOOL"); ("tool", VStr "get_weather") ].

Definition read : value :=
  VDict [ ("step", VStr "TOOL"); ("tool", VStr "read_file"); ("input", VStr "notes.txt") ].

Definition read_no_input : value :=
  VDict [ ("step", VStr "TOOL"); ("tool", VStr "read_file") ].

Definition delete_everything : value :=
  VDict [ ("step", VStr "TOOL"); ("tool", VStr "delete_everything");
          ("input", VStr "now") ].

Definition output : value :=
  VDict [ ("step", VStr "OUTPUT"); ("content", VStr "It is sunny in Paris") ].

Definition observe : value :=
  VDict [ ("step", VStr "OBSERVE"); ("content", VStr "noted") ].

Definition empty_object : value := VDict [].

Definition empty_list : value := VList [].

Definition values : list value :=
  [ plan; weather; weather_no_input; read; read_no_input; delete_everything;
    output; observe; empty_object; empty_list ].

(** [json.loads] on the texts [json.dumps] writes for the sample values;
    any other text used below is not JSON. *)
Definition loads (s : string) : io value :=
  match find (fun v => String.eqb (json_dumps v) s) values with
  | Some v => Returns v
  | None => Raises "Expecting value: line 1 column 1 (char 0)"
  end.

(** A world in which the weather service answers and the file is missing. *)
Definition sunny : world :=
  {| json_loads := loads;
     requests_get := fun _ => Returns {| status_code := 200; text := "Sunny +21C" |};
     subprocess_run := fun _ => Returns {| stdout := EmptyString; stderr := EmptyString |};
     os_path_dirname := fun _ => EmptyString;
     os_makedirs := fun _ => Returns tt;
     open_write := fun _ _ => Returns tt;
     open_read := fun _ => Raises "[Errno 2] No such file or directory: 'notes.txt'" |}.

(** A world in which every external call fails. *)
Definition offline : world :=
  {| json_loads := loads;
     requests_get := fun _ => Raises "Connection refused";
     subprocess_run := fun _ => Raises "[Errno 12] Cannot allocate memory";
     os_path_dirname := fun _ => EmptyString;
     os_makedirs := fun _ => Raises "[Errno 13] Permission denied: '.'";
     open_write := fun _ _ => Raises "[Errno 13] Permission denied";
     open_read := fun _ => Raises "[Errno 13] Permission denied" |}.

Definition rate_limited : string := "Error code: 429 - rate limit exceeded".

Definition unauthorized : string := "Error code: 401 - invalid API key".

(** Iterations of app.py: the model replies with the text of [v]. *)
Definition app (v : value) : App.turn :=
  {| App.created := Returns (json_dumps v); App.env := sunny |}.

Definition app_says (s : string) : App.turn :=
  {| App.created := Returns s; App.env := sunny |}.

Definition app_fails (e : string) : App.turn :=
  {| App.created := Raises e; App.env := sunny |}.

(** Iterations of cli.py: the model replies with the text of [v] at once. *)
Definition cli (v : value) : Cli.turn :=
  {| Cli.attempts := [Returns (json_dumps v)]; Cli.env := sunny |}.

Definition cli_says (s : string) : Cli.turn :=
  {| Cli.attempts := [Returns s]; Cli.env := sunny |}.

End Sample.

(** ** Further readings of a run *)

(** What a run appends after the user's message: replies of the model, each
    TOOL reply that was dispatched followed at once by its observation. *)
Inductive dialogue : list message -> Prop :=
| dialogue_nil : dialogue []
| dialogue_reply (raw : string) (rest : list message) :
    dialogue rest -> dialogue (assistant raw :: rest)
| dialogue_tool (raw name result : string) (rest : list message) :
    dialogue rest ->
    dialogue (assistant raw :: observation (VStr name) result :: rest).

(** [st'] is [st] with a dialogue appended. *)
Definition continues_dialogue (st st' : state) : Prop :=
  exists suffix, message_history st' = message_history st ++ suffix /\ dialogue suffix.

(** The sleeps [st'] has beyond [st] are all of 5 seconds. *)
Definition slept_fives (st st' : state) : Prop :=
  exists k, sleeps (trace st') = sleeps (trace st) ++ repeat 5%Z k.

(** The messages one iteration appends. *)
Definition appended_by_iteration (msgs : list message) : Prop :=
  msgs = [] \/
  (exists raw, msgs = [assistant raw]) \/
  (exists raw name result, msgs = [assistant raw; observation (VStr name) result]).


(** Printable ASCII, one line: every character is between space and tilde. *)
Fixpoint printable (s : string) : bool :=
  match s with
  | EmptyString => true
  | String c s' => ((32 <=? PyStr.code c) && (PyStr.code c <=? 126))%N && printable s'
  end.

(** The rate-limit failures [Cli.safe_llm_call] meets before the answer it
    ends on. *)
Fixpoint retries (answers : list (io string)) : nat :=
  match answers with
  | Raises e :: rest => if PyStr.contains "429" e then S (retries rest) else 0
  | _ => 0
  end.

(** The URL [App.get_weather] requests for [city]. *)
Definition weather_url (city : string) : string :=
  "https://wttr.in/" ++ PyStr.lower city ++ "?format=%C+%t".

(** * Properties *)

Arguments json_dumps : simpl never.
Arguments PyStr.strip : simpl never.
Arguments PyStr.contains : simpl never.
Arguments PyStr.take : simpl never.

(** ** Values, tools, exceptions *)

Lemma eq_str_true (v : value) (k : string) :
  eq_str v k = true -> v = VStr k.
Proof.
  destruct v; simpl; try discriminate.
  intros E. apply String.eqb_eq in E. now subst.
Qed.

Lemma try_except_total {A : Type} (body : io A) (handler : string -> io A) :
  (forall e, exists a, handler e = Returns a) ->
  exists a, try_except body handler = Returns a.
Proof.
  intros H. destruct body as [a | e]; simpl; eauto.
Qed.

Lemma subscript_tools_registered {F : Type} (tools : list (string * F)) (tool_name : value) :
  registered tools tool_name = true ->
  exists name f, tool_name = VStr name /\ In (name, f) tools /\
                 forall st, subscript_tools tools tool_name st = Returned f st.
Proof.
  destruct tool_name as [| | | | name | |]; simpl; try discriminate.
  intros R. exists name.
  induction tools as [| [k f] tl IH]; simpl in *; [discriminate |].
  destruct (String.eqb k name) eqn:E; simpl in *.
  - apply String.eqb_eq in E. subst. exists f. auto.
  - destruct (IH R) as (g & _ & Hin & Hg). exists g. auto.
Qed.

Lemma subscript_tools_missing {F : Type} (tools : list (string * F)) (tool_name : value) (st : state) :
  registered tools tool_name = false ->
  subscript_tools tools tool_name st = Raised (dispatch_error tool_name) st.
Proof.
  destruct tool_name as [| | | | name | |]; simpl; try reflexivity.
  intros R.
  assert (H : find (fun kf : string * F => String.eqb (fst kf) name) tools = None).
  { induction tools as [| [k f] tl IH]; simpl in *; [reflexivity |].
    destruct (String.eqb k name); simpl in *; [discriminate | auto]. }
  now rewrite H.
Qed.

(** ** Memory only grows *)

Lemma extends_refl (st : state) : extends st st.
Proof. exists []. split; [now rewrite app_nil_r | constructor]. Qed.

Lemma extends_trans (st1 st2 st3 : state) :
  extends st1 st2 -> extends st2 st3 -> extends st1 st3.
Proof.
  intros (s1 & E1 & F1) (s2 & E2 & F2). exists (s1 ++ s2). split.
  - now rewrite E2, E1, app_assoc.
  - apply Forall_app. auto.
Qed.

Lemma extends_log (ev : effect) (st : state) : extends st (log ev st).
Proof. exists []. split; [simpl; now rewrite app_nil_r | constructor]. Qed.

Lemma extends_push (m : message) (st : state) :
  role m <> "system" -> extends st (push m st).
Proof. intros H. exists [m]. split; [reflexivity | auto]. Qed.

Lemma extends_length (st st' : state) :
  extends st st' -> length (message_history st) <= length (message_history st').
Proof. intros (s & E & _). rewrite E, length_app. lia. Qed.

Lemma extends_nth (st st' : state) (i : nat) (m : message) :
  extends st st' ->
  nth_error (message_history st) i = Some m ->
  nth_error (message_history st') i = Some m.
Proof.
  intros (s & E & _) H. rewrite E, nth_error_app1; [exact H |].
  apply nth_error_Some. congruence.
Qed.

(** ** The loop *)

Section Loop.

Context {T : Type}.
Variable body : T -> M ctl.

Lemma while_true_extends :
  (forall t st, extends st (state_of (body t st))) ->
  forall script st, extends st (state_of (while_true body script st)).
Proof.
  intros Hbody script. induction script as [| t rest IH]; intros st; simpl.
  - apply extends_refl.
  - specialize (Hbody t st).
    destruct (body t st) as [[|] st' | e st' | st']; simpl in *; auto.
    eapply extends_trans; [exact Hbody | apply IH].
Qed.

(** A longer script only adds to what a shorter one left in memory. *)
Lemma while_true_grows :
  (forall t st, extends st (state_of (body t st))) ->
  forall script more st,
    extends (state_of (while_true body script st))
            (state_of (while_true body (script ++ more) st)).
Proof.
  intros Hbody script more. induction script as [| t rest IH]; intros st; simpl.
  - apply while_true_extends, Hbody.
  - destruct (body t st) as [[|] st' | e st' | st']; simpl; auto using extends_refl.
Qed.

Variables goes ends : T -> bool.
Hypothesis ends_not_goes : forall t, ends t = true -> goes t = false.
Hypothesis body_ctl :
  forall t st,
    ctl_of (body t st) =
    if goes t then Some Continue else if ends t then Some Break else None.

(** The loop returns exactly when the script holds an iteration that ends
    it, and every iteration before that one goes on. *)
Lemma while_true_returns (script : list T) (st : state) :
  (exists st', while_true body script st = Returned tt st') <->
  (exists pre t post,
      script = pre ++ t :: post /\ forallb goes pre = true /\ ends t = true).
Proof.
  revert st. induction script as [| t rest IH]; intros st; simpl.
  - split.
    + intros [st' H]. discriminate.
    + intros (pre & t & post & E & _). destruct pre; discriminate.
  - pose proof (body_ctl t st) as Hc.
    destruct (body t st) as [[|] st1 | e st1 | st1]; simpl in Hc.
    + destruct (goes t) eqn:G.
      * rewrite IH. split.
        -- intros (pre & u & post & E & Hp & Hu).
           exists (t :: pre), u, post. simpl. rewrite G, Hp, E. auto.
        -- intros (pre & u & post & E & Hp & Hu).
           destruct pre as [| p pre]; simpl in *.
           ++ inversion E; subst. rewrite (ends_not_goes _ Hu) in G. discriminate.
           ++ inversion E; subst. apply andb_prop in Hp. destruct Hp.
              exists pre, u, post. auto.
      * destruct (ends t); discriminate.
    + destruct (goes t) eqn:G; [discriminate |].
      destruct (ends t) eqn:En; [| discriminate].
      split; [| eauto]. intros _. exists [], t, rest. auto.
    + destruct (goes t) eqn:G; [discriminate |].
      destruct (ends t) eqn:En; [discriminate |].
      split; [intros [? H]; discriminate |].
      intros (pre & u & post & E & Hp & Hu).
      destruct pre as [| p pre]; simpl in *; inversion E; subst.
      * congruence.
      * rewrite G in Hp. discriminate.
    + destruct (goes t) eqn:G; [discriminate |].
      destruct (ends t) eqn:En; [discriminate |].
      split; [intros [? H]; discriminate |].
      intros (pre & u & post & E & Hp & Hu).
      destruct pre as [| p pre]; simpl in *; inversion E; subst.
      * congruence.
      * rewrite G in Hp. discriminate.
Qed.

End Loop.

(** ** app.py, one iteration *)

Ltac run :=
  unfold bind, ret, raise, wait, emit, print, time_sleep, append, get_history, lift, get;
  simpl.

Ltac app_reply t D :=
  unfold App.decode, classify in D; unfold App.body, App.create, App.replied, App.called;
  destruct (App.created t) as [reply | e]; [| discriminate]; run;
  destruct (json_loads (App.env t) (PyStr.strip reply)) as [[] | ]; try discriminate;
  inversion D; subst; run.

Lemma app_body_no_reply t st e :
  App.created t = Raises e ->
  App.body t st = Raised (ServiceError e) (App.called st).
Proof.
  intros E. unfold App.body, App.create. run. now rewrite E.
Qed.

Lemma app_body_undecodable t st raw :
  App.decode t = Undecodable raw ->
  App.body t st =
  Returned Continue
    (log (Print [Str "RAW:"; Obj (VStr raw)])
       (log (Print [Str "⚠️ Invalid JSON from model, retrying..."])
          (App.replied raw st))).
Proof.
  intros D. app_reply t D. reflexivity.
Qed.

Lemma app_body_not_object t st raw v :
  App.decode t = NotObject raw v ->
  App.body t st = Raised (AttributeError v "get") (App.replied raw st).
Proof.
  intros D. app_reply t D; reflexivity.
Qed.

Lemma app_body_plan t st raw step :
  App.decode t = Decoded raw step ->
  eq_str (dict_get step "step") "PLAN" = true ->
  App.body t st =
  Returned Continue
    (log (Print [Str "🧠"; Obj (dict_get step "content")]) (App.replied raw st)).
Proof.
  intros D K. app_reply t D. now rewrite K.
Qed.

Lemma app_body_output t st raw step :
  App.decode t = Decoded raw step ->
  eq_str (dict_get step "step") "OUTPUT" = true ->
  App.body t st =
  Returned Break
    (log (Print [Str (PyStr.nl ++ "🌤️ Weather Agent:");
                 Obj (dict_get step "content"); Str PyStr.nl])
       (App.replied raw st)).
Proof.
  intros D K. app_reply t D. rewrite (eq_str_true _ _ K). reflexivity.
Qed.

Lemma app_body_unrecognized t st raw step :
  App.decode t = Decoded raw step ->
  unrecognized (Decoded raw step) = true ->
  App.body t st = Returned Continue (App.replied raw st).
Proof.
  intros D K. app_reply t D. simpl in K.
  destruct (eq_str (dict_get step "step") "PLAN"); [discriminate |].
  destruct (eq_str (dict_get step "step") "TOOL"); [discriminate |].
  destruct (eq_str (dict_get step "step") "OUTPUT"); [discriminate |].
  reflexivity.
Qed.

Lemma app_body_tool_missing t st raw step :
  App.decode t = Decoded raw step ->
  eq_str (dict_get step "step") "TOOL" = true ->
  registered App.tools (dict_get step "tool") = false ->
  App.body t st =
  Raised (dispatch_error (dict_get step "tool"))
         (log (App.calling step) (App.replied raw st)).
Proof.
  intros D K R. app_reply t D. rewrite (eq_str_true _ _ K). simpl.
  rewrite subscript_tools_missing by exact R. reflexivity.
Qed.

Lemma app_body_tool t st raw step name f result :
  App.decode t = Decoded raw step ->
  eq_str (dict_get step "step") "TOOL" = true ->
  dict_get step "tool" = VStr name ->
  In (name, f) App.tools ->
  f (App.env t) (dict_get step "input") = Returns result ->
  App.body t st =
  Returned Continue
    (push (observation (VStr name) result)
       (log (Print [Str "📡 Tool result:"; Obj (VStr result)])
          (log (App.calling step) (App.replied raw st)))).
Proof.
  intros D K N I R. app_reply t D. rewrite (eq_str_true _ _ K). simpl.
  destruct I as [I | []]. inversion I; subst.
  unfold App.calling. rewrite N. simpl. rewrite R. reflexivity.
Qed.

Lemma app_tools_total name f w v :
  In (name, f) App.tools -> exists s, f w v = Returns s.
Proof.
  intros [E | []]. inversion E; subst.
  apply try_except_total. eauto.
Qed.

Lemma app_decode_no_reply t :
  App.decode t = NoReply -> exists e, App.created t = Raises e.
Proof.
  unfold App.decode, classify. destruct (App.created t) as [reply | e]; [| eauto].
  destruct (json_loads (App.env t) (PyStr.strip reply)) as [[] |]; discriminate.
Qed.

Lemma app_body_dispatch t st raw step :
  App.decode t = Decoded raw step ->
  dispatches App.tools (Decoded raw step) = true ->
  exists name f result,
    dict_get step "tool" = VStr name /\ In (name, f) App.tools /\
    f (App.env t) (dict_get step "input") = Returns result /\
    App.body t st =
    Returned Continue
      (push (observation (VStr name) result)
         (log (Print [Str "📡 Tool result:"; Obj (VStr result)])
            (log (App.calling step) (App.replied raw st)))).
Proof.
  intros D H. simpl in H. apply andb_prop in H. destruct H as [K R].
  destruct (subscript_tools_registered _ _ R) as (name & f & N & I & _).
  destruct (app_tools_total name f (App.env t) (dict_get step "input") I) as [result Hr].
  exists name, f, result. repeat split; auto.
  eapply app_body_tool; eauto.
Qed.

Lemma app_body_ctl t st :
  ctl_of (App.body t st) =
  if goes_on App.tools (App.decode t) then Some Continue
  else if step_is "OUTPUT" (App.decode t) then Some Break else None.
Proof.
  destruct (App.decode t) as [| raw | raw v | raw step] eqn:D.
  - destruct (app_decode_no_reply t D) as [e E].
    now rewrite (app_body_no_reply t st e E).
  - now rewrite (app_body_undecodable t st raw D).
  - now rewrite (app_body_not_object t st raw v D).
  - unfold goes_on, step_is, dispatches, unrecognized.
    destruct (eq_str (dict_get step "step") "PLAN") eqn:P.
    { now rewrite (app_body_plan t st raw step D P). }
    destruct (eq_str (dict_get step "step") "TOOL") eqn:K.
    { destruct (registered App.tools (dict_get step "tool")) eqn:R.
      - destruct (app_body_dispatch t st raw step D) as (name & f & result & _ & _ & _ & B).
        { simpl. now rewrite K, R. }
        now rewrite B.
      - rewrite (app_body_tool_missing t st raw step D K R).
        rewrite (eq_str_true _ _ K). reflexivity. }
    destruct (eq_str (dict_get step "step") "OUTPUT") eqn:O.
    { now rewrite (app_body_output t st raw step D O). }
    rewrite (app_body_unrecognized t st raw step D); [reflexivity |].
    simpl. now rewrite P, K, O.
Qed.

Lemma extends_replied raw st : extends st (App.replied raw st).
Proof.
  unfold App.replied, App.called.
  eapply extends_trans; [apply extends_log | apply extends_push]. discriminate.
Qed.

Lemma app_body_extends t st : extends st (state_of (App.body t st)).
Proof.
  destruct (App.decode t) as [| raw | raw v | raw step] eqn:D.
  - destruct (app_decode_no_reply t D) as [e E].
    rewrite (app_body_no_reply t st e E). apply extends_log.
  - rewrite (app_body_undecodable t st raw D). simpl.
    repeat (eapply extends_trans; [| apply extends_log]). apply extends_replied.
  - rewrite (app_body_not_object t st raw v D). apply extends_replied.
  - destruct (eq_str (dict_get step "step") "PLAN") eqn:P.
    { rewrite (app_body_plan t st raw step D P). simpl.
      eapply extends_trans; [| apply extends_log]. apply extends_replied. }
    destruct (eq_str (dict_get step "step") "TOOL") eqn:K.
    { destruct (registered App.tools (dict_get step "tool")) eqn:R.
      - destruct (app_body_dispatch t st raw step D) as (name & f & result & _ & _ & _ & B).
        { simpl. now rewrite K, R. }
        rewrite B. simpl.
        eapply extends_trans; [| apply extends_push; discriminate].
        repeat (eapply extends_trans; [| apply extends_log]). apply extends_replied.
      - rewrite (app_body_tool_missing t st raw step D K R). simpl.
        eapply extends_trans; [| apply extends_log]. apply extends_replied. }
    destruct (eq_str (dict_get step "step") "OUTPUT") eqn:O.
    { rewrite (app_body_output t st raw step D O). simpl.
      eapply extends_trans; [| apply extends_log]. apply extends_replied. }
    rewrite (app_body_unrecognized t st raw step D); [apply extends_replied |].
    simpl. now rewrite P, K, O.
Qed.

(** ** cli.py, the model call *)

Lemma safe_llm_call_settled answers st :
  Cli.safe_llm_call answers st =
  match Cli.settled answers with
  | Some (Returns reply) => Returned reply (Cli.called answers st)
  | Some (Raises e) => Raised (ServiceError e) (Cli.called answers st)
  | None => Pending (Cli.called answers st)
  end.
Proof.
  revert st. induction answers as [| [reply | e] rest IH]; intros st; simpl.
  - reflexivity.
  - reflexivity.
  - run. destruct (PyStr.contains "429" e); [apply IH | reflexivity].
Qed.

Lemma called_history answers st :
  message_history (Cli.called answers st) = message_history st.
Proof.
  revert st. induction answers as [| [reply | e] rest IH]; intros st; simpl; auto.
  destruct (PyStr.contains "429" e); [now rewrite IH | reflexivity].
Qed.

(** ** cli.py, one iteration *)

Ltac cli_reply t D :=
  unfold Cli.decode, classify in D; unfold Cli.body, Cli.replied;
  unfold bind at 1; rewrite safe_llm_call_settled;
  destruct (Cli.settled (Cli.attempts t)) as [[reply | e] |]; try discriminate; run;
  destruct (json_loads (Cli.env t) (PyStr.strip reply)) as [[] | ]; try discriminate;
  inversion D; subst; run.

Lemma cli_body_no_reply t st :
  Cli.decode t = NoReply ->
  Cli.body t st =
  match Cli.settled (Cli.attempts t) with
  | Some (Raises e) => Raised (ServiceError e) (Cli.called (Cli.attempts t) st)
  | _ => Pending (Cli.called (Cli.attempts t) st)
  end.
Proof.
  unfold Cli.decode, classify, Cli.body. intros D.
  unfold bind at 1. rewrite safe_llm_call_settled.
  destruct (Cli.settled (Cli.attempts t)) as [[reply | e] |]; try reflexivity.
  destruct (json_loads (Cli.env t) (PyStr.strip reply)) as [[] |]; discriminate.
Qed.

Lemma cli_body_undecodable t st raw :
  Cli.decode t = Undecodable raw ->
  Cli.body t st =
  Returned Continue
    (log (Print [Str "⚠️ Invalid JSON, retrying..."]) (Cli.replied raw t st)).
Proof.
  intros D. cli_reply t D. reflexivity.
Qed.

Lemma cli_body_not_object t st raw v :
  Cli.decode t = NotObject raw v ->
  Cli.body t st = Raised (AttributeError v "get") (Cli.replied raw t st).
Proof.
  intros D. cli_reply t D; reflexivity.
Qed.

Lemma cli_body_plan t st raw step :
  Cli.decode t = Decoded raw step ->
  eq_str (dict_get step "step") "PLAN" = true ->
  Cli.body t st =
  Returned Continue
    (log (Print [Str "🧠"; Obj (dict_get step "content")]) (Cli.replied raw t st)).
Proof.
  intros D K. cli_reply t D. now rewrite K.
Qed.

Lemma cli_body_output t st raw step :
  Cli.decode t = Decoded raw step ->
  eq_str (dict_get step "step") "OUTPUT" = true ->
  Cli.body t st =
  Returned Break
    (log (Print [Str (PyStr.nl ++ "🤖 Agent:");
                 Obj (dict_get step "content"); Str PyStr.nl])
       (Cli.replied raw t st)).
Proof.
  intros D K. cli_reply t D. rewrite (eq_str_true _ _ K). reflexivity.
Qed.

Lemma cli_body_unrecognized t st raw step :
  Cli.decode t = Decoded raw step ->
  unrecognized (Decoded raw step) = true ->
  Cli.body t st = Returned Continue (Cli.replied raw t st).
Proof.
  intros D K. cli_reply t D. simpl in K.
  destruct (eq_str (dict_get step "step") "PLAN"); [discriminate |].
  destruct (eq_str (dict_get step "step") "TOOL"); [discriminate |].
  destruct (eq_str (dict_get step "step") "OUTPUT"); [discriminate |].
  reflexivity.
Qed.

Lemma cli_body_tool_missing t st raw step :
  Cli.decode t = Decoded raw step ->
  eq_str (dict_get step "step") "TOOL" = true ->
  registered Cli.tools (dict_get step "tool") = false ->
  Cli.body t st =
  Raised (dispatch_error (dict_get step "tool"))
         (log (Cli.calling step) (Cli.replied raw t st)).
Proof.
  intros D K R. cli_reply t D. rewrite (eq_str_true _ _ K). simpl.
  rewrite subscript_tools_missing by exact R. reflexivity.
Qed.

Lemma cli_body_tool t st raw step name f result :
  Cli.decode t = Decoded raw step ->
  eq_str (dict_get step "step") "TOOL" = true ->
  dict_get step "tool" = VStr name ->
  In (name, f) Cli.tools ->
  f (Cli.env t) (dict_get step "input") = Returns result ->
  Cli.body t st =
  Returned Continue
    (push (observation (VStr name) result)
       (log (Print [Str ("📡 Result:" ++ PyStr.nl); Obj (VStr (PyStr.take 600 result))])
          (log (Cli.calling step) (Cli.replied raw t st)))).
Proof.
  intros D K N I R. cli_reply t D. rewrite (eq_str_true _ _ K). simpl.
  unfold Cli.calling. rewrite N.
  destruct I as [I | [I | [I | []]]]; inversion I; subst; simpl; rewrite R; reflexivity.
Qed.

Lemma cli_tools_total name f w v :
  In (name, f) Cli.tools -> exists s, f w v = Returns s.
Proof.
  intros [E | [E | [E | []]]]; inversion E; subst; apply try_except_total; eauto.
Qed.

Lemma cli_body_dispatch t st raw step :
  Cli.decode t = Decoded raw step ->
  dispatches Cli.tools (Decoded raw step) = true ->
  exists name f result,
    dict_get step "tool" = VStr name /\ In (name, f) Cli.tools /\
    f (Cli.env t) (dict_get step "input") = Returns result /\
    Cli.body t st =
    Returned Continue
      (push (observation (VStr name) result)
         (log (Print [Str ("📡 Result:" ++ PyStr.nl); Obj (VStr (PyStr.take 600 result))])
            (log (Cli.calling step) (Cli.replied raw t st)))).
Proof.
  intros D H. simpl in H. apply andb_prop in H. destruct H as [K R].
  destruct (subscript_tools_registered _ _ R) as (name & f & N & I & _).
  destruct (cli_tools_total name f (Cli.env t) (dict_get step "input") I) as [result Hr].
  exists name, f, result. repeat split; auto.
  eapply cli_body_tool; eauto.
Qed.

Lemma cli_body_ctl t st :
  ctl_of (Cli.body t st) =
  if goes_on Cli.tools (Cli.decode t) then Some Continue
  else if step_is "OUTPUT" (Cli.decode t) then Some Break else None.
Proof.
  destruct (Cli.decode t) as [| raw | raw v | raw step] eqn:D.
  - rewrite (cli_body_no_reply t st D).
    now destruct (Cli.settled (Cli.attempts t)) as [[|] |].
  - now rewrite (cli_body_undecodable t st raw D).
  - now rewrite (cli_body_not_object t st raw v D).
  - unfold goes_on, step_is, dispatches, unrecognized.
    destruct (eq_str (dict_get step "step") "PLAN") eqn:P.
    { now rewrite (cli_body_plan t st raw step D P). }
    destruct (eq_str (dict_get step "step") "TOOL") eqn:K.
    { destruct (registered Cli.tools (dict_get step "tool")) eqn:R.
      - destruct (cli_body_dispatch t st raw step D) as (name & f & result & _ & _ & _ & B).
        { simpl. now rewrite K, R. }
        now rewrite B.
      - rewrite (cli_body_tool_missing t st raw step D K R).
        rewrite (eq_str_true _ _ K). reflexivity. }
    destruct (eq_str (dict_get step "step") "OUTPUT") eqn:O.
    { now rewrite (cli_body_output t st raw step D O). }
    rewrite (cli_body_unrecognized t st raw step D); [reflexivity |].
    simpl. now rewrite P, K, O.
Qed.

Lemma extends_called answers st : extends st (Cli.called answers st).
Proof.
  exists []. split; [| constructor]. now rewrite called_history, app_nil_r.
Qed.

Lemma extends_cli_replied raw t st : extends st (Cli.replied raw t st).
Proof.
  unfold Cli.replied.
  eapply extends_trans; [apply extends_called | apply extends_push]. discriminate.
Qed.

Lemma cli_body_extends t st : extends st (state_of (Cli.body t st)).
Proof.
  destruct (Cli.decode t) as [| raw | raw v | raw step] eqn:D.
  - rewrite (cli_body_no_reply t st D).
    destruct (Cli.settled (Cli.attempts t)) as [[|] |]; apply extends_called.
  - rewrite (cli_body_undecodable t st raw D). simpl.
    eapply extends_trans; [| apply extends_log]. apply extends_cli_replied.
  - rewrite (cli_body_not_object t st raw v D). apply extends_cli_replied.
  - destruct (eq_str (dict_get step "step") "PLAN") eqn:P.
    { rewrite (cli_body_plan t st raw step D P). simpl.
      eapply extends_trans; [| apply extends_log]. apply extends_cli_replied. }
    destruct (eq_str (dict_get step "step") "TOOL") eqn:K.
    { destruct (registered Cli.tools (dict_get step "tool")) eqn:R.
      - destruct (cli_body_dispatch t st raw step D) as (name & f & result & _ & _ & _ & B).
        { simpl. now rewrite K, R. }
        rewrite B. simpl.
        eapply extends_trans; [| apply extends_push; discriminate].
        repeat (eapply extends_trans; [| apply extends_log]). apply extends_cli_replied.
      - rewrite (cli_body_tool_missing t st raw step D K R). simpl.
        eapply extends_trans; [| apply extends_log]. apply extends_cli_replied. }
    destruct (eq_str (dict_get step "step") "OUTPUT") eqn:O.
    { rewrite (cli_body_output t st raw step D O). simpl.
      eapply extends_trans; [| apply extends_log]. apply extends_cli_replied. }
    rewrite (cli_body_unrecognized t st raw step D); [apply extends_cli_replied |].
    simpl. now rewrite P, K, O.
Qed.

(** ** Whole runs *)

Section Prefix.

Context {T : Type}.
Variable body : T -> M ctl.
Variable goes : T -> bool.
Hypothesis body_goes :
  forall t st, goes t = true -> exists st', body t st = Returned Continue st'.

(** Iterations that go on are consumed one by one; the loop then runs on
    the rest of the script. *)
Lemma while_true_prefix (pre : list T) (st : state) :
  forallb goes pre = true ->
  exists st1, forall rest,
    while_true body (pre ++ rest) st = while_true body rest st1.
Proof.
  revert st. induction pre as [| t pre IH]; intros st H; simpl in *.
  - exists st. reflexivity.
  - apply andb_prop in H. destruct H as [G H].
    destruct (body_goes t st G) as [st' B].
    destruct (IH st' H) as [st1 E]. exists st1. intros rest.
    now rewrite B, E.
Qed.

End Prefix.

Lemma ctl_of_continue (o : outcome ctl) :
  ctl_of o = Some Continue -> exists st', o = Returned Continue st'.
Proof.
  destruct o as [[|] st' | |]; simpl; try discriminate. eauto.
Qed.

Lemma app_body_goes_on t st :
  goes_on App.tools (App.decode t) = true ->
  exists st', App.body t st = Returned Continue st'.
Proof.
  intros G. apply ctl_of_continue. now rewrite app_body_ctl, G.
Qed.

Lemma cli_body_goes_on t st :
  goes_on Cli.tools (Cli.decode t) = true ->
  exists st', Cli.body t st = Returned Continue st'.
Proof.
  intros G. apply ctl_of_continue. now rewrite cli_body_ctl, G.
Qed.

Lemma output_not_goes_on {F : Type} (tools : list (string * F)) (v : verdict) :
  step_is "OUTPUT" v = true -> goes_on tools v = false.
Proof.
  destruct v as [| raw | raw v | raw step]; simpl; try discriminate.
  intros O. rewrite (eq_str_true _ _ O). reflexivity.
Qed.

Lemma returned_value {A : Type} (m : M A) (st : state) :
  (exists st', bind m (fun _ => ret VNone) st = Returned VNone st') <->
  (exists a st', m st = Returned a st').
Proof.
  unfold bind, ret. destruct (m st) as [a st1 | e st1 | st1]; split.
  - intros [st' H]. eauto.
  - intros (b & st' & H). eauto.
  - intros [st' H]. discriminate.
  - intros (b & st' & H). discriminate.
  - intros [st' H]. discriminate.
  - intros (b & st' & H). discriminate.
Qed.

Lemma app_run_agent_extends q script st :
  extends st (state_of (App.run_agent q script st)).
Proof.
  unfold App.run_agent, bind, append, ret.
  eapply extends_trans; [apply (extends_push {| role := "user"; content := q |}); discriminate |].
  pose proof (while_true_extends App.body app_body_extends script
                (push {| role := "user"; content := q |} st)) as H.
  destruct (while_true App.body script _); exact H.
Qed.

Lemma cli_run_agent_extends q script st :
  extends st (state_of (Cli.run_agent q script st)).
Proof.
  unfold Cli.run_agent, bind, append, ret.
  eapply extends_trans; [apply (extends_push {| role := "user"; content := q |}); discriminate |].
  pose proof (while_true_extends Cli.body cli_body_extends script
                (push {| role := "user"; content := q |} st)) as H.
  destruct (while_true Cli.body script _); exact H.
Qed.

Lemma app_run_agent_grows q script more st :
  extends (state_of (App.run_agent q script st))
          (state_of (App.run_agent q (script ++ more) st)).
Proof.
  unfold App.run_agent, bind, append, ret.
  pose proof (while_true_grows App.body app_body_extends script more
                (push {| role := "user"; content := q |} st)) as H.
  destruct (while_true App.body script _), (while_true App.body (script ++ more) _);
    exact H.
Qed.

Lemma cli_run_agent_grows q script more st :
  extends (state_of (Cli.run_agent q script st))
          (state_of (Cli.run_agent q (script ++ more) st)).
Proof.
  unfold Cli.run_agent, bind, append, ret.
  pose proof (while_true_grows Cli.body cli_body_extends script more
                (push {| role := "user"; content := q |} st)) as H.
  destruct (while_true Cli.body script _), (while_true Cli.body (script ++ more) _);
    exact H.
Qed.

Lemma app_main_body_extends entry st :
  extends st (state_of (App.main_body entry st)).
Proof.
  unfold App.main_body. run. destruct (fst entry) as [q | e]; simpl.
  - destruct (String.eqb (PyStr.lower q) "exit"); simpl.
    + eapply extends_trans; apply extends_log.
    + pose proof (app_run_agent_extends q (snd entry) (log (Input "You: ") st)) as H.
      destruct (App.run_agent q (snd entry) _);
        (eapply extends_trans; [apply extends_log | exact H]).
  - apply extends_log.
Qed.

Lemma cli_main_body_extends entry st :
  extends st (state_of (Cli.main_body entry st)).
Proof.
  unfold Cli.main_body. run. destruct (fst entry) as [q | e]; simpl.
  - destruct (String.eqb (PyStr.lower q) "exit"); simpl.
    + eapply extends_trans; apply extends_log.
    + pose proof (cli_run_agent_extends q (snd entry) (log (Input "You: ") st)) as H.
      destruct (Cli.run_agent q (snd entry) _);
        (eapply extends_trans; [apply extends_log | exact H]).
  - apply extends_log.
Qed.

Lemma extends_one_system sys st st' :
  one_system_message sys (message_history st) ->
  extends st st' ->
  one_system_message sys (message_history st').
Proof.
  intros (rest & E & R & F) (suffix & E' & F').
  exists (rest ++ suffix). rewrite E', E. repeat split; auto.
  apply Forall_app. auto.
Qed.

Lemma dict_get_absent (step : list (string * value)) (key : string) :
  (forall v, ~ In (key, v) step) -> dict_get step key = VNone.
Proof.
  induction step as [| [k v] tl IH]; simpl; intros H; [reflexivity |].
  destruct (String.eqb k key) eqn:E.
  - apply String.eqb_eq in E. subst. exfalso. apply (H v). now left.
  - apply IH. intros w Hw. apply (H w). now right.
Qed.

(** ** The loop ends on OUTPUT *)

Lemma goes_on_not_output {F T : Type} (tools : list (string * F))
      (decode : T -> verdict) (pre : list T) :
  forallb (fun u => goes_on tools (decode u)) pre = true ->
  forallb (fun u => negb (step_is "OUTPUT" (decode u))) pre = true.
Proof.
  induction pre as [| u pre IH]; simpl; [reflexivity |].
  intros H. apply andb_prop in H. destruct H as [G H].
  rewrite (IH H), andb_true_r.
  destruct (step_is "OUTPUT" (decode u)) eqn:O; [| reflexivity].
  rewrite (output_not_goes_on tools _ O) in G. discriminate.
Qed.

(** C1 (as amended): a run of [run_agent] returns only when an iteration
    decodes an OUTPUT step, and at the first such step; it does return there
    when every earlier iteration fails to decode its reply, or decodes a PLAN
    step, a TOOL step naming a registered tool, or a dict with no recognized
    step; each such iteration goes on to the next model call. *)
Theorem run_agent_returns_at_first_output :
  (forall q script st v st',
      App.run_agent q script st = Returned v st' ->
      exists pre t post,
        script = pre ++ t :: post /\
        forallb (fun u => negb (step_is "OUTPUT" (App.decode u))) pre = true /\
        step_is "OUTPUT" (App.decode t) = true) /\
  (forall q pre t post st,
      forallb (fun u => goes_on App.tools (App.decode u)) pre = true ->
      step_is "OUTPUT" (App.decode t) = true ->
      exists st', App.run_agent q (pre ++ t :: post) st = Returned VNone st') /\
  (forall t rest st,
      goes_on App.tools (App.decode t) = true ->
      exists st', App.body t st = Returned Continue st' /\
                  while_true App.body (t :: rest) st = while_true App.body rest st') /\
  (forall q script st v st',
      Cli.run_agent q script st = Returned v st' ->
      exists pre t post,
        script = pre ++ t :: post /\
        forallb (fun u => negb (step_is "OUTPUT" (Cli.decode u))) pre = true /\
        step_is "OUTPUT" (Cli.decode t) = true) /\
  (forall q pre t post st,
      forallb (fun u => goes_on Cli.tools (Cli.decode u)) pre = true ->
      step_is "OUTPUT" (Cli.decode t) = true ->
      exists st', Cli.run_agent q (pre ++ t :: post) st = Returned VNone st') /\
  (forall t rest st,
      goes_on Cli.tools (Cli.decode t) = true ->
      exists st', Cli.body t st = Returned Continue st' /\
                  while_true Cli.body (t :: rest) st = while_true Cli.body rest st').
Proof.
  assert (HA : forall script st,
             (exists st', while_true App.body script st = Returned tt st') <->
             (exists pre t post,
                 script = pre ++ t :: post /\
                 forallb (fun u => goes_on App.tools (App.decode u)) pre = true /\
                 step_is "OUTPUT" (App.decode t) = true)).
  { intros script st.
    apply (while_true_returns App.body
             (fun u => goes_on App.tools (App.decode u))
             (fun u => step_is "OUTPUT" (App.decode u))).
    - intros t. apply output_not_goes_on.
    - intros t s. apply app_body_ctl. }
  assert (HC : forall script st,
             (exists st', while_true Cli.body script st = Returned tt st') <->
             (exists pre t post,
                 script = pre ++ t :: post /\
                 forallb (fun u => goes_on Cli.tools (Cli.decode u)) pre = true /\
                 step_is "OUTPUT" (Cli.decode t) = true)).
  { intros script st.
    apply (while_true_returns Cli.body
             (fun u => goes_on Cli.tools (Cli.decode u))
             (fun u => step_is "OUTPUT" (Cli.decode u))).
    - intros t. apply output_not_goes_on.
    - intros t s. apply cli_body_ctl. }
  split; [| split; [| split; [| split; [| split]]]].
  - intros q script st v st' R.
    assert (W : exists s, while_true App.body script
                            (push {| role := "user"; content := q |} st) = Returned tt s).
    { revert R. unfold App.run_agent, bind, append, ret.
      destruct (while_true App.body script _) as [[] s | |]; try discriminate. eauto. }
    apply HA in W. destruct W as (pre & t & post & E & G & O).
    exists pre, t, post. repeat split; auto.
    apply (goes_on_not_output App.tools). exact G.
  - intros q pre t post st G O.
    destruct (proj2 (HA (pre ++ t :: post) (push {| role := "user"; content := q |} st)))
      as [s W]; [exists pre, t, post; auto |].
    exists s. unfold App.run_agent, bind, append, ret. now rewrite W.
  - intros t rest st G. destruct (app_body_goes_on t st G) as [st' B].
    exists st'. split; [exact B |]. simpl. now rewrite B.
  - intros q script st v st' R.
    assert (W : exists s, while_true Cli.body script
                            (push {| role := "user"; content := q |} st) = Returned tt s).
    { revert R. unfold Cli.run_agent, bind, append, ret.
      destruct (while_true Cli.body script _) as [[] s | |]; try discriminate. eauto. }
    apply HC in W. destruct W as (pre & t & post & E & G & O).
    exists pre, t, post. repeat split; auto.
    apply (goes_on_not_output Cli.tools). exact G.
  - intros q pre t post st G O.
    destruct (proj2 (HC (pre ++ t :: post) (push {| role := "user"; content := q |} st)))
      as [s W]; [exists pre, t, post; auto |].
    exists s. unfold Cli.run_agent, bind, append, ret. now rewrite W.
  - intros t rest st G. destruct (cli_body_goes_on t st G) as [st' B].
    exists st'. split; [exact B |]. simpl. now rewrite B.
Qed.

Lemma run_agent_returns_at_first_output_witness :
  (exists pre t post,
      [Sample.app Sample.plan; Sample.app Sample.output; Sample.app Sample.output]
      = pre ++ t :: post /\
      forallb (fun u => negb (step_is "OUTPUT" (App.decode u))) pre = true /\
      step_is "OUTPUT" (App.decode t) = true) /\
  (exists st',
      App.run_agent "weather in Paris"
        ([Sample.app_says "not json"; Sample.app Sample.plan; Sample.app Sample.weather]
           ++ Sample.app Sample.output :: [Sample.app Sample.plan]) App.initial
      = Returned VNone st') /\
  (exists st',
      App.body (Sample.app Sample.plan) App.initial = Returned Continue st' /\
      while_true App.body [Sample.app Sample.plan; Sample.app Sample.output] App.initial
      = while_true App.body [Sample.app Sample.output] st') /\
  (exists st',
      Cli.run_agent "read my notes"
        ([Sample.cli_says "not json"; Sample.cli Sample.read]
           ++ Sample.cli Sample.output :: []) Cli.initial
      = Returned VNone st') /\
  (exists st',
      Cli.body (Sample.cli Sample.read) Cli.initial = Returned Continue st' /\
      while_true Cli.body [Sample.cli Sample.read; Sample.cli Sample.output] Cli.initial
      = while_true Cli.body [Sample.cli Sample.output] st').
Proof.
  split; [| split; [| split; [| split]]].
  - eapply (proj1 run_agent_returns_at_first_output "weather in Paris" _ App.initial).
    vm_compute. reflexivity.
  - apply (proj1 (proj2 run_agent_returns_at_first_output)); vm_compute; reflexivity.
  - apply (proj1 (proj2 (proj2 run_agent_returns_at_first_output))).
    vm_compute. reflexivity.
  - apply (proj1 (proj2 (proj2 (proj2 (proj2 run_agent_returns_at_first_output)))));
      vm_compute; reflexivity.
  - apply (proj2 (proj2 (proj2 (proj2 (proj2 run_agent_returns_at_first_output))))).
    vm_compute. reflexivity.
Defined.

(** C1, as stated, fails: an iteration that decodes a TOOL step naming an
    unregistered tool does not go on to another model call, and the run
    ends although no OUTPUT step was decoded. *)
Lemma unregistered_tool_step_stops_the_loop :
  step_is "TOOL" (App.decode (Sample.app Sample.delete_everything)) = true /\
  exists st',
    App.run_agent "clean up"
      [Sample.app Sample.delete_everything; Sample.app Sample.output] App.initial
    = Raised (KeyError (VStr "delete_everything")) st' /\
    requests (trace st') = 1.
Proof.
  split; [reflexivity |].
  eexists. split; [vm_compute; reflexivity | reflexivity].
Qed.

(** ** Rate limiting *)

Lemma waited_S (n : nat) (st : state) :
  waited n (log (Sleep 5)
              (log (Print [Str "⏳ Rate limit hit… waiting 5s"])
                 (log (Create (Cli.request (message_history st))) st)))
  = waited (S n) st.
Proof.
  unfold waited, log, backoff. simpl. f_equal.
  rewrite <- !app_assoc. reflexivity.
Qed.

Lemma safe_llm_call_backoff (errs : list string) (answers : list (io string)) (st : state) :
  Forall (fun e => PyStr.contains "429" e = true) errs ->
  Cli.safe_llm_call (map Raises errs ++ answers) st
  = Cli.safe_llm_call answers (waited (length errs) st).
Proof.
  intros H. revert st. induction H as [| e errs He _ IH]; intros st; simpl.
  - unfold waited. simpl. rewrite app_nil_r. now destruct st.
  - run. rewrite He. rewrite <- waited_S. apply IH.
Qed.

Lemma sleeps_app (tr1 tr2 : list effect) :
  sleeps (tr1 ++ tr2) = sleeps tr1 ++ sleeps tr2.
Proof. unfold sleeps. apply flat_map_app. Qed.

Lemma sleeps_waited (n : nat) (st : state) :
  sleeps (trace (waited n st)) = sleeps (trace st) ++ repeat 5%Z n.
Proof.
  unfold waited. simpl. rewrite sleeps_app. f_equal.
  induction n as [| n IH]; [reflexivity |].
  change (concat (repeat (backoff (message_history st)) (S n)))
    with (backoff (message_history st) ++ concat (repeat (backoff (message_history st)) n)).
  rewrite sleeps_app, IH. reflexivity.
Qed.

(** C2 (as amended): in cli.py, [safe_llm_call] retries a failure whose text
    contains 429, after a notice and a sleep of 5 seconds, as many times as
    the failure recurs, with the same request; it gives up on no count; any
    other failure leaves it, and the loop, at once.  In app.py the model is
    called directly: every failure, a rate limit included, leaves the loop. *)
Theorem rate_limit_is_retried_in_cli_only :
  (forall errs reply rest st,
      Forall (fun e => PyStr.contains "429" e = true) errs ->
      Cli.safe_llm_call (map Raises errs ++ Returns reply :: rest) st
      = Returned reply (log (Create (Cli.request (message_history st)))
                          (waited (length errs) st)) /\
      sleeps (trace (waited (length errs) st))
      = sleeps (trace st) ++ repeat 5%Z (length errs)) /\
  (forall errs st,
      Forall (fun e => PyStr.contains "429" e = true) errs ->
      Cli.safe_llm_call (map Raises errs) st = Pending (waited (length errs) st)) /\
  (forall errs e rest st,
      Forall (fun e => PyStr.contains "429" e = true) errs ->
      PyStr.contains "429" e = false ->
      Cli.safe_llm_call (map Raises errs ++ Raises e :: rest) st
      = Raised (ServiceError e)
          (log (Create (Cli.request (message_history st))) (waited (length errs) st))) /\
  (forall t rest st e,
      Cli.settled (Cli.attempts t) = Some (Raises e) ->
      while_true Cli.body (t :: rest) st
      = Raised (ServiceError e) (Cli.called (Cli.attempts t) st)) /\
  (forall t rest st e,
      App.created t = Raises e ->
      while_true App.body (t :: rest) st = Raised (ServiceError e) (App.called st) /\
      sleeps (trace (App.called st)) = sleeps (trace st)).
Proof.
  split; [| split; [| split; [| split]]].
  - intros errs reply rest st H. split; [| apply sleeps_waited].
    rewrite safe_llm_call_backoff by exact H. reflexivity.
  - intros errs st H.
    rewrite <- (app_nil_r (map Raises errs)).
    rewrite safe_llm_call_backoff by exact H. reflexivity.
  - intros errs e rest st H E.
    rewrite safe_llm_call_backoff by exact H. simpl. run. now rewrite E.
  - intros t rest st e E. simpl.
    rewrite cli_body_no_reply.
    + now rewrite E.
    + unfold Cli.decode. now rewrite E.
  - intros t rest st e E. split.
    + simpl. now rewrite (app_body_no_reply t st e E).
    + unfold App.called. simpl. rewrite sleeps_app. simpl. apply app_nil_r.
Qed.

Lemma rate_limit_is_retried_in_cli_only_witness :
  (Cli.safe_llm_call
     (map Raises [Sample.rate_limited; Sample.rate_limited]
        ++ Returns (json_dumps Sample.output) :: []) Cli.initial
   = Returned (json_dumps Sample.output)
       (log (Create (Cli.request (message_history Cli.initial))) (waited 2 Cli.initial)) /\
   sleeps (trace (waited 2 Cli.initial)) = [5; 5]%Z) /\
  Cli.safe_llm_call
    (map Raises [Sample.rate_limited; Sample.rate_limited; Sample.rate_limited]) Cli.initial
  = Pending (waited 3 Cli.initial) /\
  Cli.safe_llm_call
    (map Raises [Sample.rate_limited]
       ++ Raises Sample.unauthorized :: [Returns (json_dumps Sample.output)]) Cli.initial
  = Raised (ServiceError Sample.unauthorized)
      (log (Create (Cli.request (message_history Cli.initial))) (waited 1 Cli.initial)) /\
  (while_true App.body
     [Sample.app_fails Sample.rate_limited; Sample.app Sample.output] App.initial
   = Raised (ServiceError Sample.rate_limited) (App.called App.initial) /\
   sleeps (trace (App.called App.initial)) = sleeps (trace App.initial)).
Proof.
  split; [| split; [| split]].
  - apply (proj1 rate_limit_is_retried_in_cli_only
             [Sample.rate_limited; Sample.rate_limited]).
    repeat constructor.
  - apply (proj1 (proj2 rate_limit_is_retried_in_cli_only)
             [Sample.rate_limited; Sample.rate_limited; Sample.rate_limited]).
    repeat constructor.
  - apply (proj1 (proj2 (proj2 rate_limit_is_retried_in_cli_only))
             [Sample.rate_limited]).
    + repeat constructor.
    + reflexivity.
  - apply (proj2 (proj2 (proj2 (proj2 rate_limit_is_retried_in_cli_only)))).
    reflexivity.
Defined.

(** C2, as stated, fails in app.py: a rate-limit failure of the model
    service is not retried; it ends the run after one request and no sleep. *)
Lemma app_rate_limit_is_not_retried :
  PyStr.contains "429" Sample.rate_limited = true /\
  exists st',
    App.run_agent "weather in Paris"
      [Sample.app_fails Sample.rate_limited; Sample.app Sample.output] App.initial
    = Raised (ServiceError Sample.rate_limited) st' /\
    requests (trace st') = 1 /\
    sleeps (trace st') = [].
Proof.
  split; [reflexivity |].
  eexists. split; [vm_compute; reflexivity | split; reflexivity].
Qed.

(** ** Replies that are not steps *)

(** C3, at the failing input: the reply [[]] is valid JSON but not an
    object; [step.get] raises AttributeError, which leaves [run_agent] and
    [main]: the session ends after one request, the later answers of the
    model and the next line of the user unread. *)
Theorem list_reply_ends_the_session :
  App.decode (Sample.app Sample.empty_list) = NotObject "[]" (VList []) /\
  (exists st',
      App.main
        [ (Returns "weather in Paris",
           [Sample.app Sample.empty_list; Sample.app Sample.output]);
          (Returns "and in Rome?", [Sample.app Sample.output]) ] App.initial
      = Raised (AttributeError (VList []) "get") st' /\
      requests (trace st') = 1) /\
  Cli.decode (Sample.cli Sample.empty_list) = NotObject "[]" (VList []) /\
  (exists st',
      Cli.main
        [ (Returns "read my notes",
           [Sample.cli Sample.empty_list; Sample.cli Sample.output]);
          (Returns "and again", [Sample.cli Sample.output]) ] Cli.initial
      = Raised (AttributeError (VList []) "get") st' /\
      requests (trace st') = 1).
Proof.
  split; [reflexivity |]. split.
  - eexists. split; [vm_compute; reflexivity | reflexivity].
  - split; [reflexivity |].
    eexists. split; [vm_compute; reflexivity | reflexivity].
Qed.

(** C4 (as amended): a reply that decodes to a dict whose [step] is absent
    or is none of PLAN, TOOL, OUTPUT raises nothing: no branch of the loop
    body is taken, nothing is printed, nothing but the reply itself is
    appended to memory, and the loop goes on to the next model call. *)
Theorem unrecognized_step_is_skipped :
  (forall t rest st raw step,
      App.decode t = Decoded raw step ->
      unrecognized (Decoded raw step) = true ->
      App.body t st = Returned Continue (App.replied raw st) /\
      while_true App.body (t :: rest) st = while_true App.body rest (App.replied raw st)) /\
  (forall t rest st raw step,
      Cli.decode t = Decoded raw step ->
      unrecognized (Decoded raw step) = true ->
      Cli.body t st = Returned Continue (Cli.replied raw t st) /\
      while_true Cli.body (t :: rest) st = while_true Cli.body rest (Cli.replied raw t st)).
Proof.
  split; intros t rest st raw step D U.
  - pose proof (app_body_unrecognized t st raw step D U) as B.
    split; [exact B |]. simpl. now rewrite B.
  - pose proof (cli_body_unrecognized t st raw step D U) as B.
    split; [exact B |]. simpl. now rewrite B.
Qed.

Lemma unrecognized_step_is_skipped_witness :
  (App.body (Sample.app Sample.observe) App.initial
   = Returned Continue (App.replied (json_dumps Sample.observe) App.initial) /\
   while_true App.body [Sample.app Sample.observe; Sample.app Sample.output] App.initial
   = while_true App.body [Sample.app Sample.output]
       (App.replied (json_dumps Sample.observe) App.initial)) /\
  (Cli.body (Sample.cli Sample.empty_object) Cli.initial
   = Returned Continue
       (Cli.replied (json_dumps Sample.empty_object) (Sample.cli Sample.empty_object)
          Cli.initial) /\
   while_true Cli.body [Sample.cli Sample.empty_object] Cli.initial
   = while_true Cli.body []
       (Cli.replied (json_dumps Sample.empty_object) (Sample.cli Sample.empty_object)
          Cli.initial)).
Proof.
  split.
  - apply (proj1 unrecognized_step_is_skipped) with (step := [ ("step", VStr "OBSERVE"); ("content", VStr "noted") ]);
      reflexivity.
  - apply (proj2 unrecognized_step_is_skipped) with (step := []); reflexivity.
Defined.

(** C4, as stated, fails: the reply [{}] has no [step]; the iteration raises
    no error, it returns to the top of the loop. *)
Lemma absent_step_raises_nothing :
  App.decode (Sample.app Sample.empty_object) = Decoded "{}" [] /\
  dict_get [] "step" = VNone /\
  App.body (Sample.app Sample.empty_object) App.initial
  = Returned Continue (App.replied "{}" App.initial) /\
  trace (App.replied "{}" App.initial)
  = [Create (App.request (message_history App.initial))].
Proof.
  repeat split.
Qed.

(** ** Dispatch *)

(** C5: a TOOL step whose tool is not in the registry makes the lookup
    [tools[tool_name]] raise; the exception leaves the loop, the rest of the
    script unread, and memory holds the reply and no observation. *)
Theorem unregistered_tool_aborts_the_run :
  (forall t rest st raw step,
      App.decode t = Decoded raw step ->
      step_is "TOOL" (Decoded raw step) = true ->
      registered App.tools (dict_get step "tool") = false ->
      exists st',
        while_true App.body (t :: rest) st
        = Raised (dispatch_error (dict_get step "tool")) st' /\
        message_history st' = message_history st ++ [assistant raw] /\
        carriers (message_history st') = carriers (message_history st)) /\
  (forall t rest st raw step,
      Cli.decode t = Decoded raw step ->
      step_is "TOOL" (Decoded raw step) = true ->
      registered Cli.tools (dict_get step "tool") = false ->
      exists st',
        while_true Cli.body (t :: rest) st
        = Raised (dispatch_error (dict_get step "tool")) st' /\
        message_history st' = message_history st ++ [assistant raw] /\
        carriers (message_history st') = carriers (message_history st)).
Proof.
  split; intros t rest st raw step D K R.
  - exists (log (App.calling step) (App.replied raw st)). split; [| split].
    + simpl. now rewrite (app_body_tool_missing t st raw step D K R).
    + reflexivity.
    + unfold carriers. simpl. rewrite filter_app, length_app. simpl. lia.
  - exists (log (Cli.calling step) (Cli.replied raw t st)). split; [| split].
    + simpl. now rewrite (cli_body_tool_missing t st raw step D K R).
    + simpl. now rewrite called_history.
    + unfold carriers. simpl. rewrite called_history, filter_app, length_app. simpl. lia.
Qed.

Lemma unregistered_tool_aborts_the_run_witness :
  (exists st',
      while_true App.body
        [Sample.app Sample.delete_everything; Sample.app Sample.output] App.initial
      = Raised (dispatch_error (VStr "delete_everything")) st' /\
      message_history st'
      = message_history App.initial ++ [assistant (json_dumps Sample.delete_everything)] /\
      carriers (message_history st') = carriers (message_history App.initial)) /\
  (exists st',
      while_true Cli.body
        [Sample.cli Sample.weather; Sample.cli Sample.output] Cli.initial
      = Raised (dispatch_error (VStr "get_weather")) st' /\
      message_history st'
      = message_history Cli.initial ++ [assistant (json_dumps Sample.weather)] /\
      carriers (message_history st') = carriers (message_history Cli.initial)).
Proof.
  split.
  - apply (proj1 unregistered_tool_aborts_the_run
             (Sample.app Sample.delete_everything) [Sample.app Sample.output] App.initial
             (json_dumps Sample.delete_everything)
             [ ("step", VStr "TOOL"); ("tool", VStr "delete_everything");
               ("input", VStr "now") ]); reflexivity.
  - apply (proj2 unregistered_tool_aborts_the_run
             (Sample.cli Sample.weather) [Sample.cli Sample.output] Cli.initial
             (json_dumps Sample.weather)
             [ ("step", VStr "TOOL"); ("tool", VStr "get_weather");
               ("input", VStr "Paris") ]); reflexivity.
Defined.

(** C7: a TOOL step that names a registered tool runs that tool on the
    step's input and appends, after the reply, exactly one message: the
    observation that carries the tool's name and the string it returned. *)
Theorem tool_step_appends_one_observation :
  (forall t st raw step,
      App.decode t = Decoded raw step ->
      dispatches App.tools (Decoded raw step) = true ->
      exists name f result st',
        dict_get step "tool" = VStr name /\ In (name, f) App.tools /\
        f (App.env t) (dict_get step "input") = Returns result /\
        App.body t st = Returned Continue st' /\
        message_history st'
        = message_history st ++ [assistant raw; observation (VStr name) result] /\
        carriers (message_history st') = carriers (message_history st) + 1) /\
  (forall t st raw step,
      Cli.decode t = Decoded raw step ->
      dispatches Cli.tools (Decoded raw step) = true ->
      exists name f result st',
        dict_get step "tool" = VStr name /\ In (name, f) Cli.tools /\
        f (Cli.env t) (dict_get step "input") = Returns result /\
        Cli.body t st = Returned Continue st' /\
        message_history st'
        = message_history st ++ [assistant raw; observation (VStr name) result] /\
        carriers (message_history st') = carriers (message_history st) + 1).
Proof.
  split; intros t st raw step D H.
  - destruct (app_body_dispatch t st raw step D H) as (name & f & result & N & I & R & B).
    exists name, f, result. eexists. repeat split; eauto.
    + simpl. now rewrite <- app_assoc.
    + unfold carriers. simpl. rewrite !filter_app, !length_app. simpl. lia.
  - destruct (cli_body_dispatch t st raw step D H) as (name & f & result & N & I & R & B).
    exists name, f, result. eexists. repeat split; eauto.
    + simpl. now rewrite called_history, <- app_assoc.
    + unfold carriers. simpl. rewrite called_history, !filter_app, !length_app. simpl. lia.
Qed.

Lemma tool_step_appends_one_observation_witness :
  (exists name f result st',
      dict_get [ ("step", VStr "TOOL"); ("tool", VStr "get_weather"); ("input", VStr "Paris") ]
        "tool" = VStr name /\
      In (name, f) App.tools /\
      f (App.env (Sample.app Sample.weather)) (VStr "Paris") = Returns result /\
      App.body (Sample.app Sample.weather) App.initial = Returned Continue st' /\
      message_history st'
      = message_history App.initial
          ++ [assistant (json_dumps Sample.weather); observation (VStr name) result] /\
      carriers (message_history st') = carriers (message_history App.initial) + 1) /\
  (exists name f result st',
      dict_get [ ("step", VStr "TOOL"); ("tool", VStr "read_file");
                 ("input", VStr "notes.txt") ] "tool" = VStr name /\
      In (name, f) Cli.tools /\
      f (Cli.env (Sample.cli Sample.read)) (VStr "notes.txt") = Returns result /\
      Cli.body (Sample.cli Sample.read) Cli.initial = Returned Continue st' /\
      message_history st'
      = message_history Cli.initial
          ++ [assistant (json_dumps Sample.read); observation (VStr name) result] /\
      carriers (message_history st') = carriers (message_history Cli.initial) + 1).
Proof.
  split.
  - apply (proj1 tool_step_appends_one_observation
             (Sample.app Sample.weather) App.initial (json_dumps Sample.weather)
             [ ("step", VStr "TOOL"); ("tool", VStr "get_weather"); ("input", VStr "Paris") ]);
      reflexivity.
  - apply (proj2 tool_step_appends_one_observation
             (Sample.cli Sample.read) Cli.initial (json_dumps Sample.read)
             [ ("step", VStr "TOOL"); ("tool", VStr "read_file");
               ("input", VStr "notes.txt") ]);
      reflexivity.
Defined.

(** ** The final answer *)

(** C6 (as amended): when an iteration decodes an OUTPUT step the loop
    exits; the step's content is printed as the final answer, last in the
    trace, and [run_agent] returns None.  Whatever the run, a value
    [run_agent] returns is None. *)
Theorem output_is_printed_and_none_returned :
  (forall q pre t post st raw step,
      forallb (fun u => goes_on App.tools (App.decode u)) pre = true ->
      App.decode t = Decoded raw step ->
      step_is "OUTPUT" (Decoded raw step) = true ->
      exists st1,
        App.run_agent q (pre ++ t :: post) st
        = Returned VNone
            (log (Print [Str (PyStr.nl ++ "🌤️ Weather Agent:");
                         Obj (dict_get step "content"); Str PyStr.nl])
               (App.replied raw st1))) /\
  (forall q pre t post st raw step,
      forallb (fun u => goes_on Cli.tools (Cli.decode u)) pre = true ->
      Cli.decode t = Decoded raw step ->
      step_is "OUTPUT" (Decoded raw step) = true ->
      exists st1,
        Cli.run_agent q (pre ++ t :: post) st
        = Returned VNone
            (log (Print [Str (PyStr.nl ++ "🤖 Agent:");
                         Obj (dict_get step "content"); Str PyStr.nl])
               (Cli.replied raw t st1))) /\
  (forall q script st v st',
      App.run_agent q script st = Returned v st' -> v = VNone) /\
  (forall q script st v st',
      Cli.run_agent q script st = Returned v st' -> v = VNone).
Proof.
  split; [| split; [| split]].
  - intros q pre t post st raw step G D O.
    destruct (while_true_prefix App.body _ app_body_goes_on pre
                (push {| role := "user"; content := q |} st) G) as [st1 E].
    exists st1.
    change (App.run_agent q (pre ++ t :: post) st)
      with (bind (while_true App.body (pre ++ t :: post)) (fun _ => ret VNone)
              (push {| role := "user"; content := q |} st)).
    unfold bind. rewrite E. simpl.
    now rewrite (app_body_output t st1 raw step D O).
  - intros q pre t post st raw step G D O.
    destruct (while_true_prefix Cli.body _ cli_body_goes_on pre
                (push {| role := "user"; content := q |} st) G) as [st1 E].
    exists st1.
    change (Cli.run_agent q (pre ++ t :: post) st)
      with (bind (while_true Cli.body (pre ++ t :: post)) (fun _ => ret VNone)
              (push {| role := "user"; content := q |} st)).
    unfold bind. rewrite E. simpl.
    now rewrite (cli_body_output t st1 raw step D O).
  - intros q script st v st'. unfold App.run_agent, bind, append, ret.
    destruct (while_true App.body script _); intros H; inversion H; reflexivity.
  - intros q script st v st'. unfold Cli.run_agent, bind, append, ret.
    destruct (while_true Cli.body script _); intros H; inversion H; reflexivity.
Qed.

Lemma output_is_printed_and_none_returned_witness :
  exists st1,
    App.run_agent "weather in Paris"
      ([Sample.app Sample.plan; Sample.app Sample.weather]
         ++ Sample.app Sample.output :: []) App.initial
    = Returned VNone
        (log (Print [Str (PyStr.nl ++ "🌤️ Weather Agent:");
                     Obj (VStr "It is sunny in Paris"); Str PyStr.nl])
           (App.replied (json_dumps Sample.output) st1)).
Proof.
  apply (proj1 output_is_printed_and_none_returned "weather in Paris"
           [Sample.app Sample.plan; Sample.app Sample.weather]
           (Sample.app Sample.output) [] App.initial (json_dumps Sample.output)
           [ ("step", VStr "OUTPUT"); ("content", VStr "It is sunny in Paris") ]);
    reflexivity.
Defined.

(** C6, as stated, fails: the run reaches an OUTPUT step whose content is a
    string, and what [run_agent] returns to its caller is None. *)
Lemma output_content_is_not_returned :
  exists st',
    App.run_agent "weather in Paris" [Sample.app Sample.output] App.initial
    = Returned VNone st' /\
    step_is "OUTPUT" (App.decode (Sample.app Sample.output)) = true /\
    dict_get [ ("step", VStr "OUTPUT"); ("content", VStr "It is sunny in Paris") ] "content"
    = VStr "It is sunny in Paris" /\
    VNone <> VStr "It is sunny in Paris".
Proof.
  eexists. split; [vm_compute; reflexivity |].
  repeat split. discriminate.
Qed.

(** ** Memory *)

Lemma app_main_extends session st :
  extends st (state_of (App.main session st)).
Proof.
  unfold App.main. run.
  pose proof (while_true_extends App.main_body app_main_body_extends session
                (log (Print [Str ("🌦️ Weather Agent Ready (type 'exit')" ++ PyStr.nl)]) st))
    as H.
  destruct (while_true App.main_body session _);
    (eapply extends_trans; [apply extends_log | exact H]).
Qed.

Lemma cli_main_extends session st :
  extends st (state_of (Cli.main session st)).
Proof.
  unfold Cli.main. run.
  pose proof (while_true_extends Cli.main_body cli_main_body_extends session
                (log (Print [Str ("💻 Coding Agent V2 Ready (type 'exit')" ++ PyStr.nl)]) st))
    as H.
  destruct (while_true Cli.main_body session _);
    (eapply extends_trans; [apply extends_log | exact H]).
Qed.

Lemma app_initial_one_system :
  one_system_message {| role := "system"; content := App.SYSTEM_PROMPT |}
    (message_history App.initial).
Proof. exists []. repeat split. constructor. Qed.

Lemma cli_initial_one_system :
  one_system_message {| role := "system"; content := Cli.SYSTEM_PROMPT |}
    (message_history Cli.initial).
Proof. exists []. repeat split. constructor. Qed.

(** C8: memory starts as the one system message; a run only appends to it,
    never a system message; so at every point of a run, and of a session,
    memory begins with that one system message, its length has not
    decreased, and every message is where it was. *)
Theorem memory_is_append_only :
  (message_history App.initial = [ {| role := "system"; content := App.SYSTEM_PROMPT |} ] /\
   message_history Cli.initial = [ {| role := "system"; content := Cli.SYSTEM_PROMPT |} ]) /\
  (forall q script more st,
      let before := message_history st in
      let during := message_history (state_of (App.run_agent q script st)) in
      let later := message_history (state_of (App.run_agent q (script ++ more) st)) in
      (exists suffix, during = before ++ suffix /\
                      Forall (fun m => role m <> "system") suffix) /\
      (exists suffix, later = during ++ suffix /\
                      Forall (fun m => role m <> "system") suffix) /\
      length before <= length during <= length later /\
      (forall i m, nth_error before i = Some m -> nth_error during i = Some m) /\
      (forall i m, nth_error during i = Some m -> nth_error later i = Some m)) /\
  (forall q script more st,
      let before := message_history st in
      let during := message_history (state_of (Cli.run_agent q script st)) in
      let later := message_history (state_of (Cli.run_agent q (script ++ more) st)) in
      (exists suffix, during = before ++ suffix /\
                      Forall (fun m => role m <> "system") suffix) /\
      (exists suffix, later = during ++ suffix /\
                      Forall (fun m => role m <> "system") suffix) /\
      length before <= length during <= length later /\
      (forall i m, nth_error before i = Some m -> nth_error during i = Some m) /\
      (forall i m, nth_error during i = Some m -> nth_error later i = Some m)) /\
  (forall q script,
      one_system_message {| role := "system"; content := App.SYSTEM_PROMPT |}
        (message_history (state_of (App.run_agent q script App.initial)))) /\
  (forall q script,
      one_system_message {| role := "system"; content := Cli.SYSTEM_PROMPT |}
        (message_history (state_of (Cli.run_agent q script Cli.initial)))) /\
  (forall session,
      one_system_message {| role := "system"; content := App.SYSTEM_PROMPT |}
        (message_history (state_of (App.main session App.initial)))) /\
  (forall session,
      one_system_message {| role := "system"; content := Cli.SYSTEM_PROMPT |}
        (message_history (state_of (Cli.main session Cli.initial)))).
Proof.
  split; [split; reflexivity |]. split; [| split; [| split; [| split; [| split]]]].
  - intros q script more st before during later.
    pose proof (app_run_agent_extends q script st) as H1.
    pose proof (app_run_agent_grows q script more st) as H2.
    split; [exact H1 |]. split; [exact H2 |]. split; [| split].
    + split; apply extends_length; assumption.
    + intros i m. apply extends_nth. exact H1.
    + intros i m. apply extends_nth. exact H2.
  - intros q script more st before during later.
    pose proof (cli_run_agent_extends q script st) as H1.
    pose proof (cli_run_agent_grows q script more st) as H2.
    split; [exact H1 |]. split; [exact H2 |]. split; [| split].
    + split; apply extends_length; assumption.
    + intros i m. apply extends_nth. exact H1.
    + intros i m. apply extends_nth. exact H2.
  - intros q script. eapply extends_one_system.
    + apply app_initial_one_system.
    + apply app_run_agent_extends.
  - intros q script. eapply extends_one_system.
    + apply cli_initial_one_system.
    + apply cli_run_agent_extends.
  - intros session. eapply extends_one_system.
    + apply app_initial_one_system.
    + apply app_main_extends.
  - intros session. eapply extends_one_system.
    + apply cli_initial_one_system.
    + apply cli_main_extends.
Qed.

(** ** Tools *)

Lemma dispatch_error_not_tool (v : value) (e : string) :
  dispatch_error v <> ToolError e.
Proof. destruct v; discriminate. Qed.

Lemma app_body_no_tool_error t st e st' :
  App.body t st <> Raised (ToolError e) st'.
Proof.
  destruct (App.decode t) as [| raw | raw v | raw step] eqn:D.
  - destruct (app_decode_no_reply t D) as [e0 E].
    rewrite (app_body_no_reply t st e0 E). discriminate.
  - rewrite (app_body_undecodable t st raw D). discriminate.
  - rewrite (app_body_not_object t st raw v D). discriminate.
  - pose proof (app_body_ctl t st) as C. rewrite D in C.
    destruct (goes_on App.tools (Decoded raw step)) eqn:G.
    { destruct (App.body t st); discriminate. }
    destruct (step_is "OUTPUT" (Decoded raw step)) eqn:O.
    { destruct (App.body t st); discriminate. }
    unfold goes_on, step_is, dispatches, unrecognized in G, O.
    destruct (eq_str (dict_get step "step") "PLAN") eqn:P; [discriminate |].
    destruct (eq_str (dict_get step "step") "TOOL") eqn:K.
    + destruct (registered App.tools (dict_get step "tool")) eqn:R; [discriminate |].
      rewrite (app_body_tool_missing t st raw step D K R).
      intros H. inversion H as [[H1 H2]]. now apply dispatch_error_not_tool in H1.
    + rewrite O in G. discriminate.
Qed.

Lemma cli_body_no_tool_error t st e st' :
  Cli.body t st <> Raised (ToolError e) st'.
Proof.
  destruct (Cli.decode t) as [| raw | raw v | raw step] eqn:D.
  - rewrite (cli_body_no_reply t st D).
    destruct (Cli.settled (Cli.attempts t)) as [[|] |]; discriminate.
  - rewrite (cli_body_undecodable t st raw D). discriminate.
  - rewrite (cli_body_not_object t st raw v D). discriminate.
  - pose proof (cli_body_ctl t st) as C. rewrite D in C.
    destruct (goes_on Cli.tools (Decoded raw step)) eqn:G.
    { destruct (Cli.body t st); discriminate. }
    destruct (step_is "OUTPUT" (Decoded raw step)) eqn:O.
    { destruct (Cli.body t st); discriminate. }
    unfold goes_on, step_is, dispatches, unrecognized in G, O.
    destruct (eq_str (dict_get step "step") "PLAN") eqn:P; [discriminate |].
    destruct (eq_str (dict_get step "step") "TOOL") eqn:K.
    + destruct (registered Cli.tools (dict_get step "tool")) eqn:R; [discriminate |].
      rewrite (cli_body_tool_missing t st raw step D K R).
      intros H. inversion H as [[H1 H2]]. now apply dispatch_error_not_tool in H1.
    + rewrite O in G. discriminate.
Qed.

(** C9: every registered tool, on every input and in every world, returns
    a string; what fails inside a tool (an input of the wrong type, the
    network, the shell, the file system, the payload) is turned into the
    tool's error text, and no iteration of either loop ends on an exception
    raised by a tool. *)
Theorem tools_return_strings :
  (forall name f w v,
      In (name, f) (App.tools ++ Cli.tools) -> exists s, f w v = Returns s) /\
  (forall w city, (forall s, city <> VStr s) ->
      App.get_weather w city = Returns "Weather API error") /\
  (forall w city e,
      requests_get w ("https://wttr.in/" ++ PyStr.lower city ++ "?format=%C+%t") = Raises e ->
      App.get_weather w (VStr city) = Returns "Weather API error") /\
  (forall w cmd e,
      subprocess_run w cmd = Raises e -> Cli.run_command w cmd = Returns e) /\
  (forall w payload e,
      Cli.loads w payload = Raises e ->
      Cli.write_file w payload = Returns ("Write error: " ++ e)%string) /\
  (forall w filename e,
      open_read w filename = Raises e ->
      Cli.read_file w filename = Returns ("Read error: " ++ e)%string) /\
  (forall t st e st', App.body t st <> Raised (ToolError e) st') /\
  (forall t st e st', Cli.body t st <> Raised (ToolError e) st').
Proof.
  split; [| split; [| split; [| split; [| split; [| split; [| split]]]]]].
  - intros name f w v H. apply in_app_or in H. destruct H as [H | H].
    + eapply app_tools_total. exact H.
    + eapply cli_tools_total. exact H.
  - intros w city H. destruct city; try reflexivity. now destruct (H s).
  - intros w city e H. unfold App.get_weather, App.str_method, io_bind.
    now rewrite H.
  - intros w cmd e H. unfold Cli.run_command. now rewrite H.
  - intros w payload e H. unfold Cli.write_file. now rewrite H.
  - intros w filename e H. unfold Cli.read_file. now rewrite H.
  - intros t st e st'. apply app_body_no_tool_error.
  - intros t st e st'. apply cli_body_no_tool_error.
Qed.

Lemma tools_return_strings_witness :
  (exists s, Cli.write_file Sample.offline (VStr "not json") = Returns s) /\
  App.get_weather Sample.sunny (VInt 7) = Returns "Weather API error" /\
  App.get_weather Sample.offline (VStr "Paris") = Returns "Weather API error" /\
  Cli.run_command Sample.offline (VStr "ls")
  = Returns "[Errno 12] Cannot allocate memory" /\
  Cli.write_file Sample.offline VNone
  = Returns "Write error: the JSON object must be str, bytes or bytearray, not NoneType" /\
  Cli.read_file Sample.sunny (VStr "notes.txt")
  = Returns "Read error: [Errno 2] No such file or directory: 'notes.txt'".
Proof.
  split; [| split; [| split; [| split; [| split]]]].
  - apply (proj1 tools_return_strings "write_file"). simpl. auto.
  - apply (proj1 (proj2 tools_return_strings)). discriminate.
  - apply (proj1 (proj2 (proj2 tools_return_strings))) with (e := "Connection refused").
    reflexivity.
  - apply (proj1 (proj2 (proj2 (proj2 tools_return_strings)))). reflexivity.
  - apply (proj1 (proj2 (proj2 (proj2 (proj2 tools_return_strings))))). reflexivity.
  - apply (proj1 (proj2 (proj2 (proj2 (proj2 (proj2 tools_return_strings)))))). reflexivity.
Defined.

(** C10: the loop checks neither the presence nor the type of a TOOL
    step's input.  When the field is absent the registered tool is called
    with None; it returns a string all the same, and that string is appended
    as the observation: in app.py the weather tool's error text, in cli.py
    whatever the tool makes of None. *)
Theorem absent_input_reaches_the_tool :
  (forall t st raw step,
      App.decode t = Decoded raw step ->
      dispatches App.tools (Decoded raw step) = true ->
      (forall v, ~ In ("input", v) step) ->
      exists st',
        App.get_weather (App.env t) VNone = Returns "Weather API error" /\
        App.body t st = Returned Continue st' /\
        message_history st'
        = message_history st
            ++ [assistant raw; observation (VStr "get_weather") "Weather API error"]) /\
  (forall t st raw step,
      Cli.decode t = Decoded raw step ->
      dispatches Cli.tools (Decoded raw step) = true ->
      (forall v, ~ In ("input", v) step) ->
      exists name f result st',
        dict_get step "tool" = VStr name /\ In (name, f) Cli.tools /\
        f (Cli.env t) VNone = Returns result /\
        Cli.body t st = Returned Continue st' /\
        message_history st'
        = message_history st ++ [assistant raw; observation (VStr name) result]).
Proof.
  split; intros t st raw step D H A.
  - destruct (app_body_dispatch t st raw step D H) as (name & f & result & N & I & R & B).
    rewrite (dict_get_absent step "input" A) in R.
    destruct I as [I | []]. inversion I; subst name f.
    assert (Hr : result = "Weather API error").
    { unfold App.get_weather, App.str_method, io_bind, try_except in R. congruence. }
    subst result. eexists. split; [reflexivity |]. split; [exact B |].
    simpl. now rewrite <- app_assoc.
  - destruct (cli_body_dispatch t st raw step D H) as (name & f & result & N & I & R & B).
    rewrite (dict_get_absent step "input" A) in R.
    exists name, f, result. eexists. repeat split; eauto.
    simpl. now rewrite called_history, <- app_assoc.
Qed.

Lemma absent_input_reaches_the_tool_witness :
  (exists st',
      App.get_weather (App.env (Sample.app Sample.weather_no_input)) VNone
      = Returns "Weather API error" /\
      App.body (Sample.app Sample.weather_no_input) App.initial = Returned Continue st' /\
      message_history st'
      = message_history App.initial
          ++ [assistant (json_dumps Sample.weather_no_input);
              observation (VStr "get_weather") "Weather API error"]) /\
  (exists name f result st',
      dict_get [ ("step", VStr "TOOL"); ("tool", VStr "read_file") ] "tool" = VStr name /\
      In (name, f) Cli.tools /\
      f (Cli.env (Sample.cli Sample.read_no_input)) VNone = Returns result /\
      Cli.body (Sample.cli Sample.read_no_input) Cli.initial = Returned Continue st' /\
      message_history st'
      = message_history Cli.initial
          ++ [assistant (json_dumps Sample.read_no_input); observation (VStr name) result]).
Proof.
  split.
  - apply (proj1 absent_input_reaches_the_tool
             (Sample.app Sample.weather_no_input) App.initial
             (json_dumps Sample.weather_no_input)
             [ ("step", VStr "TOOL"); ("tool", VStr "get_weather") ]).
    + reflexivity.
    + reflexivity.
    + intros v [H | [H | []]]; discriminate.
  - apply (proj2 absent_input_reaches_the_tool
             (Sample.cli Sample.read_no_input) Cli.initial
             (json_dumps Sample.read_no_input)
             [ ("step", VStr "TOOL"); ("tool", VStr "read_file") ]).
    + reflexivity.
    + reflexivity.
    + intros v [H | [H | []]]; discriminate.
Defined.

(** * Further properties *)

(** ** What one iteration adds *)

Section Related.

Context {T : Type}.
Variable body : T -> M ctl.
Variable R : state -> state -> Prop.
Hypothesis R_refl : forall st, R st st.
Hypothesis R_trans : forall st1 st2 st3, R st1 st2 -> R st2 st3 -> R st1 st3.
Hypothesis body_R : forall t st, R st (state_of (body t st)).

(** A relation that is a preorder and holds across one iteration holds
    across the loop. *)
Lemma while_true_related (script : list T) (st : state) :
  R st (state_of (while_true body script st)).
Proof.
  revert st. induction script as [| t rest IH]; intros st; simpl.
  - apply R_refl.
  - specialize (body_R t st).
    destruct (body t st) as [[|] st' | e st' | st']; simpl in *; auto.
    eapply R_trans; [exact body_R | apply IH].
Qed.

End Related.

Lemma app_body_summary t st :
  exists msgs prints,
    message_history (state_of (App.body t st)) = message_history st ++ msgs /\
    trace (state_of (App.body t st))
    = trace st ++ Create (App.request (message_history st)) :: map Print prints /\
    appended_by_iteration msgs.
Proof.
  unfold appended_by_iteration.
  destruct (App.decode t) as [| raw | raw v | raw step] eqn:D.
  - destruct (app_decode_no_reply t D) as [e E].
    rewrite (app_body_no_reply t st e E).
    exists [], []. simpl. rewrite app_nil_r. auto.
  - rewrite (app_body_undecodable t st raw D).
    exists [assistant raw],
           [[Str "⚠️ Invalid JSON from model, retrying..."]; [Str "RAW:"; Obj (VStr raw)]].
    simpl. rewrite <- !app_assoc. eauto 6.
  - rewrite (app_body_not_object t st raw v D).
    exists [assistant raw], []. simpl. eauto 6.
  - destruct (eq_str (dict_get step "step") "PLAN") eqn:P.
    { rewrite (app_body_plan t st raw step D P).
      exists [assistant raw], [[Str "🧠"; Obj (dict_get step "content")]].
      simpl. rewrite <- !app_assoc. eauto 6. }
    destruct (eq_str (dict_get step "step") "TOOL") eqn:K.
    { destruct (registered App.tools (dict_get step "tool")) eqn:R.
      - destruct (app_body_dispatch t st raw step D) as (name & f & result & _ & _ & _ & B).
        { simpl. now rewrite K, R. }
        rewrite B.
        exists [assistant raw; observation (VStr name) result].
        eexists [_; _]. simpl. rewrite <- !app_assoc. simpl.
        split; [reflexivity |]. split; [reflexivity |]. eauto 8.
      - rewrite (app_body_tool_missing t st raw step D K R).
        exists [assistant raw]. eexists [_]. simpl. rewrite <- !app_assoc.
        split; [reflexivity |]. split; [reflexivity |]. eauto 6. }
    destruct (eq_str (dict_get step "step") "OUTPUT") eqn:O.
    { rewrite (app_body_output t st raw step D O).
      exists [assistant raw]. eexists [_]. simpl. rewrite <- !app_assoc.
      split; [reflexivity |]. split; [reflexivity |]. eauto 6. }
    rewrite (app_body_unrecognized t st raw step D).
    + exists [assistant raw], []. simpl. eauto 6.
    + simpl. now rewrite P, K, O.
Qed.

Lemma called_waited answers st :
  Cli.called answers st
  = match Cli.settled answers with
    | Some _ => log (Create (Cli.request (message_history st))) (waited (retries answers) st)
    | None => waited (retries answers) st
    end.
Proof.
  revert st. induction answers as [| [reply | e] rest IH]; intros st; simpl.
  - unfold waited. simpl. rewrite app_nil_r. now destruct st.
  - unfold waited, log. simpl. now rewrite app_nil_r.
  - destruct (PyStr.contains "429" e).
    + rewrite IH. simpl. rewrite waited_S.
      destruct (Cli.settled rest); reflexivity.
    + unfold waited, log. simpl. now rewrite app_nil_r.
Qed.

Lemma cli_body_summary t st :
  exists msgs prints,
    message_history (state_of (Cli.body t st)) = message_history st ++ msgs /\
    trace (state_of (Cli.body t st))
    = trace (Cli.called (Cli.attempts t) st) ++ map Print prints /\
    appended_by_iteration msgs.
Proof.
  unfold appended_by_iteration.
  destruct (Cli.decode t) as [| raw | raw v | raw step] eqn:D.
  - rewrite (cli_body_no_reply t st D). exists [], [].
    destruct (Cli.settled (Cli.attempts t)) as [[|] |]; simpl;
      rewrite called_history, !app_nil_r; auto.
  - rewrite (cli_body_undecodable t st raw D).
    exists [assistant raw]. eexists [_]. simpl. rewrite called_history.
    split; [reflexivity |]. split; [reflexivity |]. eauto 6.
  - rewrite (cli_body_not_object t st raw v D).
    exists [assistant raw], []. simpl. rewrite called_history, app_nil_r. eauto 6.
  - destruct (eq_str (dict_get step "step") "PLAN") eqn:P.
    { rewrite (cli_body_plan t st raw step D P).
      exists [assistant raw]. eexists [_]. simpl. rewrite called_history.
      split; [reflexivity |]. split; [reflexivity |]. eauto 6. }
    destruct (eq_str (dict_get step "step") "TOOL") eqn:K.
    { destruct (registered Cli.tools (dict_get step "tool")) eqn:R.
      - destruct (cli_body_dispatch t st raw step D) as (name & f & result & _ & _ & _ & B).
        { simpl. now rewrite K, R. }
        rewrite B.
        exists [assistant raw; observation (VStr name) result].
        eexists [_; _]. simpl. rewrite called_history, <- !app_assoc. simpl.
        split; [reflexivity |]. split; [reflexivity |]. eauto 8.
      - rewrite (cli_body_tool_missing t st raw step D K R).
        exists [assistant raw]. eexists [_]. simpl. rewrite called_history.
        split; [reflexivity |]. split; [reflexivity |]. eauto 6. }
    destruct (eq_str (dict_get step "step") "OUTPUT") eqn:O.
    { rewrite (cli_body_output t st raw step D O).
      exists [assistant raw]. eexists [_]. simpl. rewrite called_history.
      split; [reflexivity |]. split; [reflexivity |]. eauto 6. }
    rewrite (cli_body_unrecognized t st raw step D).
    + exists [assistant raw], []. simpl. rewrite called_history, app_nil_r. eauto 6.
    + simpl. now rewrite P, K, O.
Qed.

(** ** The shape of memory *)

Lemma dialogue_app (l1 l2 : list message) :
  dialogue l1 -> dialogue l2 -> dialogue (l1 ++ l2).
Proof.
  induction 1; simpl; intros H2.
  - exact H2.
  - apply dialogue_reply. auto.
  - apply dialogue_tool. auto.
Qed.

Lemma appended_dialogue (msgs : list message) :
  appended_by_iteration msgs -> dialogue msgs.
Proof.
  intros [E | [[raw E] | (raw & name & result & E)]]; subst.
  - apply dialogue_nil.
  - apply dialogue_reply, dialogue_nil.
  - apply dialogue_tool, dialogue_nil.
Qed.

Lemma continues_dialogue_refl st : continues_dialogue st st.
Proof. exists []. split; [now rewrite app_nil_r | constructor]. Qed.

Lemma continues_dialogue_trans st1 st2 st3 :
  continues_dialogue st1 st2 -> continues_dialogue st2 st3 -> continues_dialogue st1 st3.
Proof.
  intros (s1 & E1 & D1) (s2 & E2 & D2). exists (s1 ++ s2). split.
  - now rewrite E2, E1, app_assoc.
  - now apply dialogue_app.
Qed.

Lemma app_body_dialogue t st : continues_dialogue st (state_of (App.body t st)).
Proof.
  destruct (app_body_summary t st) as (msgs & prints & E & _ & A).
  exists msgs. split; [exact E | now apply appended_dialogue].
Qed.

Lemma cli_body_dialogue t st : continues_dialogue st (state_of (Cli.body t st)).
Proof.
  destruct (cli_body_summary t st) as (msgs & prints & E & _ & A).
  exists msgs. split; [exact E | now apply appended_dialogue].
Qed.

Lemma app_run_agent_state q script st :
  state_of (App.run_agent q script st)
  = state_of (while_true App.body script (push {| role := "user"; content := q |} st)).
Proof.
  unfold App.run_agent, bind, append, ret.
  now destruct (while_true App.body script _).
Qed.

Lemma cli_run_agent_state q script st :
  state_of (Cli.run_agent q script st)
  = state_of (while_true Cli.body script (push {| role := "user"; content := q |} st)).
Proof.
  unfold Cli.run_agent, bind, append, ret.
  now destruct (while_true Cli.body script _).
Qed.

Lemma app_run_agent_dialogue q script st :
  exists suffix,
    message_history (state_of (App.run_agent q script st))
    = message_history st ++ {| role := "user"; content := q |} :: suffix /\
    dialogue suffix.
Proof.
  rewrite app_run_agent_state.
  destruct (while_true_related App.body continues_dialogue
              continues_dialogue_refl continues_dialogue_trans app_body_dialogue
              script (push {| role := "user"; content := q |} st)) as (suffix & E & D).
  exists suffix. split; [| exact D]. rewrite E. simpl. now rewrite <- app_assoc.
Qed.

Lemma cli_run_agent_dialogue q script st :
  exists suffix,
    message_history (state_of (Cli.run_agent q script st))
    = message_history st ++ {| role := "user"; content := q |} :: suffix /\
    dialogue suffix.
Proof.
  rewrite cli_run_agent_state.
  destruct (while_true_related Cli.body continues_dialogue
              continues_dialogue_refl continues_dialogue_trans cli_body_dialogue
              script (push {| role := "user"; content := q |} st)) as (suffix & E & D).
  exists suffix. split; [| exact D]. rewrite E. simpl. now rewrite <- app_assoc.
Qed.


(** ** Requests *)

Section Snapshots.

Variable mk : list message -> request.
Hypothesis messages_mk : forall h, messages (mk h) = h.




End Snapshots.









Lemma app_main_state session st :
  state_of (App.main session st)
  = state_of (while_true App.main_body session
                (log (Print [Str ("🌦️ Weather Agent Ready (type 'exit')" ++ PyStr.nl)]) st)).
Proof.
  unfold App.main. run. now destruct (while_true App.main_body session _).
Qed.

Lemma cli_main_state session st :
  state_of (Cli.main session st)
  = state_of (while_true Cli.main_body session
                (log (Print [Str ("💻 Coding Agent V2 Ready (type 'exit')" ++ PyStr.nl)]) st)).
Proof.
  unfold Cli.main. run. now destruct (while_true Cli.main_body session _).
Qed.



(** ** Sleeping and counting *)

Lemma sleeps_prints (prints : list (list printed)) : sleeps (map Print prints) = [].
Proof. induction prints; simpl; auto. Qed.

Lemma requests_app (tr1 tr2 : list effect) :
  requests (tr1 ++ tr2) = requests tr1 + requests tr2.
Proof. unfold requests. now rewrite filter_app, length_app. Qed.

Lemma requests_prints (prints : list (list printed)) : requests (map Print prints) = 0.
Proof. induction prints; simpl; auto. Qed.

Lemma requests_waited (k : nat) (st : state) :
  requests (trace (waited k st)) = requests (trace st) + k.
Proof.
  unfold waited. simpl. rewrite requests_app. f_equal.
  induction k as [| k IH]; [reflexivity |].
  change (concat (repeat (backoff (message_history st)) (S k)))
    with (backoff (message_history st) ++ concat (repeat (backoff (message_history st)) k)).
  rewrite requests_app, IH. reflexivity.
Qed.

Lemma app_body_sleeps t st :
  sleeps (trace (state_of (App.body t st))) = sleeps (trace st).
Proof.
  destruct (app_body_summary t st) as (msgs & prints & _ & Et & _).
  rewrite Et, sleeps_app. simpl. change (sleeps (map Print prints)) with (sleeps (map Print prints)).
  unfold sleeps at 2. simpl. fold (sleeps (map Print prints)).
  now rewrite sleeps_prints, app_nil_r.
Qed.

Lemma app_body_requests t st :
  requests (trace (state_of (App.body t st))) = requests (trace st) + 1.
Proof.
  destruct (app_body_summary t st) as (msgs & prints & _ & Et & _).
  rewrite Et, requests_app. f_equal.
  change (Create (App.request (message_history st)) :: map Print prints)
    with ([Create (App.request (message_history st))] ++ map Print prints).
  now rewrite requests_app, requests_prints.
Qed.

Lemma slept_fives_refl st : slept_fives st st.
Proof. exists 0. simpl. now rewrite app_nil_r. Qed.

Lemma slept_fives_trans st1 st2 st3 :
  slept_fives st1 st2 -> slept_fives st2 st3 -> slept_fives st1 st3.
Proof.
  intros [k1 E1] [k2 E2]. exists (k1 + k2).
  now rewrite E2, E1, <- app_assoc, repeat_app.
Qed.

Lemma cli_body_trace t st :
  exists prints,
    trace (state_of (Cli.body t st))
    = trace (Cli.called (Cli.attempts t) st) ++ map Print prints.
Proof.
  destruct (cli_body_summary t st) as (msgs & prints & _ & Et & _). eauto.
Qed.

Lemma sleeps_log_create (r : request) (st : state) :
  sleeps (trace (log (Create r) st)) = sleeps (trace st).
Proof.
  unfold log. cbn [trace]. rewrite sleeps_app. apply app_nil_r.
Qed.

Lemma sleeps_called answers st :
  sleeps (trace (Cli.called answers st))
  = sleeps (trace st) ++ repeat 5%Z (retries answers).
Proof.
  rewrite called_waited. destruct (Cli.settled answers).
  - rewrite sleeps_log_create. apply sleeps_waited.
  - apply sleeps_waited.
Qed.

Lemma cli_body_slept t st : slept_fives st (state_of (Cli.body t st)).
Proof.
  destruct (cli_body_trace t st) as [prints Et].
  exists (retries (Cli.attempts t)).
  now rewrite Et, sleeps_app, sleeps_prints, app_nil_r, sleeps_called.
Qed.

(** X3: app.py never sleeps, whatever the session; cli.py sleeps only in
    its model call, 5 seconds at a time: every sleep of a session is of 5
    seconds. *)
Theorem only_rate_limits_sleep :
  (forall session st,
      sleeps (trace (state_of (App.main session st))) = sleeps (trace st)) /\
  (forall session st,
      exists k,
        sleeps (trace (state_of (Cli.main session st)))
        = sleeps (trace st) ++ repeat 5%Z k).
Proof.
  split; intros session st.
  - rewrite app_main_state.
    rewrite (while_true_related App.main_body
               (fun s s' => sleeps (trace s') = sleeps (trace s))); auto.
    + unfold log. simpl. rewrite sleeps_app. simpl. now rewrite app_nil_r.
    + intros s1 s2 s3 H1 H2. congruence.
    + intros entry s. unfold App.main_body. run.
      destruct (fst entry) as [q | e]; simpl.
      * destruct (String.eqb (PyStr.lower q) "exit"); simpl.
        -- rewrite !sleeps_app. simpl. now rewrite !app_nil_r.
        -- transitivity (sleeps (trace (state_of (App.run_agent q (snd entry)
                                                   (log (Input "You: ") s))))).
           { now destruct (App.run_agent q (snd entry) _). }
           rewrite app_run_agent_state.
           rewrite (while_true_related App.body
                      (fun s s' => sleeps (trace s') = sleeps (trace s))); auto.
           ++ simpl. rewrite sleeps_app. simpl. now rewrite app_nil_r.
           ++ intros s1 s2 s3 H1 H2. congruence.
           ++ intros t s1. apply app_body_sleeps.
      * rewrite sleeps_app. simpl. now rewrite app_nil_r.
  - rewrite cli_main_state.
    assert (L : forall ev s, (forall n, ev <> Sleep n) -> slept_fives s (log ev s)).
    { intros ev s H. exists 0. simpl. rewrite sleeps_app, app_nil_r.
      destruct ev; simpl; try now rewrite app_nil_r. now destruct (H seconds). }
    match goal with
    | |- context [while_true _ _ ?s0] =>
        assert (B : slept_fives st s0) by (apply L; intros n; discriminate)
    end.
    eapply slept_fives_trans; [exact B |].
    apply (while_true_related Cli.main_body slept_fives
             slept_fives_refl slept_fives_trans).
    intros entry s. unfold Cli.main_body. run.
    destruct (fst entry) as [q | e]; simpl.
    + destruct (String.eqb (PyStr.lower q) "exit"); simpl.
      * apply (slept_fives_trans _ (log (Input "You: ") s));
          apply L; intros n; discriminate.
      * apply (slept_fives_trans _ (log (Input "You: ") s));
          [apply L; intros n; discriminate |].
        assert (R : slept_fives (log (Input "You: ") s)
                      (state_of (Cli.run_agent q (snd entry) (log (Input "You: ") s)))).
        { rewrite cli_run_agent_state.
          eapply slept_fives_trans;
            [| apply (while_true_related Cli.body slept_fives
                        slept_fives_refl slept_fives_trans cli_body_slept)].
          exists 0. simpl. now rewrite app_nil_r. }
        now destruct (Cli.run_agent q (snd entry) _).
    + apply L. intros n. discriminate.
Qed.

Lemma app_prefix_requests (pre : list App.turn) (st : state) :
  forallb (fun u => goes_on App.tools (App.decode u)) pre = true ->
  exists st1,
    (forall rest, while_true App.body (pre ++ rest) st = while_true App.body rest st1) /\
    requests (trace st1) = requests (trace st) + length pre.
Proof.
  revert st. induction pre as [| t pre IH]; intros st H; simpl in *.
  - exists st. split; [reflexivity | lia].
  - apply andb_prop in H. destruct H as [G H].
    destruct (app_body_goes_on t st G) as [st' B].
    destruct (IH st' H) as (st1 & E & R). exists st1. split.
    + intros rest. now rewrite B, E.
    + pose proof (app_body_requests t st) as Q. rewrite B in Q. cbn [state_of] in Q. lia.
Qed.

Lemma cli_body_counts t st :
  Cli.decode t <> NoReply ->
  requests (trace (state_of (Cli.body t st)))
  = requests (trace st) + retries (Cli.attempts t) + 1 /\
  length (sleeps (trace (state_of (Cli.body t st))))
  = length (sleeps (trace st)) + retries (Cli.attempts t).
Proof.
  intros D. destruct (cli_body_trace t st) as [prints Et]. split.
  - rewrite Et, requests_app, requests_prints, called_waited.
    unfold Cli.decode in D.
    destruct (Cli.settled (Cli.attempts t)) as [a |]; [| congruence].
    unfold log. cbn [trace]. rewrite requests_app, requests_waited.
    change (requests [Create (Cli.request (message_history st))]) with 1. lia.
  - rewrite Et, sleeps_app, sleeps_prints, app_nil_r, sleeps_called.
    now rewrite length_app, repeat_length.
Qed.

Lemma goes_on_replied {F : Type} (tools : list (string * F)) (v : verdict) :
  goes_on tools v = true -> v <> NoReply.
Proof. intros H E. subst. discriminate. Qed.

Lemma output_replied (v : verdict) : step_is "OUTPUT" v = true -> v <> NoReply.
Proof. intros H E. subst. discriminate. Qed.

Lemma cli_prefix_counts (pre : list Cli.turn) (st : state) :
  forallb (fun u => goes_on Cli.tools (Cli.decode u)) pre = true ->
  exists st1,
    (forall rest, while_true Cli.body (pre ++ rest) st = while_true Cli.body rest st1) /\
    requests (trace st1) + length (sleeps (trace st))
    = requests (trace st) + length (sleeps (trace st1)) + length pre.
Proof.
  revert st. induction pre as [| t pre IH]; intros st H; simpl in *.
  - exists st. split; [reflexivity | lia].
  - apply andb_prop in H. destruct H as [G H].
    destruct (cli_body_goes_on t st G) as [st' B].
    destruct (IH st' H) as (st1 & E & R). exists st1. split.
    + intros rest. now rewrite B, E.
    + destruct (cli_body_counts t st (goes_on_replied _ _ G)) as [Q S].
      rewrite B in Q, S. cbn [state_of] in Q, S. lia.
Qed.

(** X4: a run that returns has made one model request per iteration in
    app.py, and in cli.py one per iteration plus one per sleep; the script
    after the OUTPUT step is not consulted. *)
Theorem requests_of_a_returning_run :
  (forall q pre t post st,
      forallb (fun u => goes_on App.tools (App.decode u)) pre = true ->
      step_is "OUTPUT" (App.decode t) = true ->
      requests (trace (state_of (App.run_agent q (pre ++ t :: post) st)))
      = requests (trace st) + length pre + 1) /\
  (forall q pre t post st,
      forallb (fun u => goes_on Cli.tools (Cli.decode u)) pre = true ->
      step_is "OUTPUT" (Cli.decode t) = true ->
      let st' := state_of (Cli.run_agent q (pre ++ t :: post) st) in
      requests (trace st') + length (sleeps (trace st))
      = requests (trace st) + length (sleeps (trace st')) + length pre + 1).
Proof.
  split.
  - intros q pre t post st G O. rewrite app_run_agent_state.
    destruct (app_prefix_requests pre (push {| role := "user"; content := q |} st) G)
      as (st1 & E & R).
    rewrite E. cbn [while_true].
    pose proof (app_body_ctl t st1) as C.
    rewrite (output_not_goes_on App.tools _ O), O in C.
    pose proof (app_body_requests t st1) as Q.
    destruct (App.body t st1) as [[|] s | |]; try discriminate.
    cbn [state_of push trace] in *. lia.
  - intros q pre t post st G O st'. subst st'. rewrite cli_run_agent_state.
    destruct (cli_prefix_counts pre (push {| role := "user"; content := q |} st) G)
      as (st1 & E & R).
    rewrite E. cbn [while_true].
    pose proof (cli_body_ctl t st1) as C.
    rewrite (output_not_goes_on Cli.tools _ O), O in C.
    destruct (cli_body_counts t st1 (output_replied _ O)) as [Q S].
    destruct (Cli.body t st1) as [[|] s | |]; try discriminate.
    cbn [state_of push trace] in *. lia.
Qed.

Lemma requests_of_a_returning_run_witness :
  requests (trace (state_of (App.run_agent "weather in Paris"
                               ([Sample.app_says "not json"; Sample.app Sample.weather]
                                  ++ Sample.app Sample.output :: [Sample.app Sample.plan])
                               App.initial)))
  = requests (trace App.initial) + 2 + 1.
Proof.
  apply (proj1 requests_of_a_returning_run "weather in Paris"
           [Sample.app_says "not json"; Sample.app Sample.weather]);
    vm_compute; reflexivity.
Defined.

(** ** Replies that cannot be decoded *)

Lemma trace_grows_refl (st : state) : exists more, trace st = trace st ++ more.
Proof. exists []. now rewrite app_nil_r. Qed.

Lemma app_body_trace_grows t st :
  exists more, trace (state_of (App.body t st)) = trace st ++ more.
Proof.
  destruct (app_body_summary t st) as (msgs & prints & _ & Et & _). eauto.
Qed.

Lemma cli_called_trace_grows answers st :
  exists more, trace (Cli.called answers st) = trace st ++ more.
Proof.
  rewrite called_waited. destruct (Cli.settled answers); unfold log, waited; simpl.
  - rewrite <- app_assoc. eauto.
  - eauto.
Qed.

Lemma cli_body_trace_grows t st :
  exists more, trace (state_of (Cli.body t st)) = trace st ++ more.
Proof.
  destruct (cli_body_trace t st) as [prints Et].
  destruct (cli_called_trace_grows (Cli.attempts t) st) as [more E].
  rewrite Et, E, <- app_assoc. eauto.
Qed.

Lemma trace_grows_trans (st1 st2 st3 : state) :
  (exists more, trace st2 = trace st1 ++ more) ->
  (exists more, trace st3 = trace st2 ++ more) ->
  exists more, trace st3 = trace st1 ++ more.
Proof.
  intros [m1 E1] [m2 E2]. exists (m1 ++ m2). now rewrite E2, E1, app_assoc.
Qed.

(** X5: a reply that [json.loads] rejects is not discarded: it is appended
    to memory as it is, and the request the next iteration sends to the
    model carries it as its last message. *)
Theorem undecodable_reply_is_sent_back :
  (forall t u rest st raw,
      App.decode t = Undecodable raw ->
      exists before after,
        trace (state_of (while_true App.body (t :: u :: rest) st))
        = before
            ++ Create (App.request (message_history st ++ [assistant raw])) :: after) /\
  (forall t u rest st raw,
      Cli.decode t = Undecodable raw ->
      Cli.attempts u <> [] ->
      exists before after,
        trace (state_of (while_true Cli.body (t :: u :: rest) st))
        = before
            ++ Create (Cli.request (message_history st ++ [assistant raw])) :: after).
Proof.
  split.
  - intros t u rest st raw D.
    change (while_true App.body (t :: u :: rest) st)
      with (match App.body t st with
            | Returned Continue st' => while_true App.body (u :: rest) st'
            | Returned Break st' => Returned tt st'
            | Raised e st' => Raised e st'
            | Pending st' => Pending st'
            end).
    rewrite (app_body_undecodable t st raw D).
    set (st1 := log _ (log _ (App.replied raw st))).
    destruct (app_body_summary u st1) as (msgs & prints & _ & Et & _).
    assert (G : exists more,
               trace (state_of (while_true App.body (u :: rest) st1))
               = trace (state_of (App.body u st1)) ++ more).
    { simpl. destruct (App.body u st1) as [[|] s | e s | s]; simpl;
        try apply trace_grows_refl.
      apply (while_true_related App.body
               (fun a b => exists more, trace b = trace a ++ more)
               trace_grows_refl trace_grows_trans app_body_trace_grows). }
    destruct G as [more G]. rewrite G, Et.
    exists (trace st1), (map Print prints ++ more).
    rewrite <- app_assoc. reflexivity.
  - intros t u rest st raw D N.
    change (while_true Cli.body (t :: u :: rest) st)
      with (match Cli.body t st with
            | Returned Continue st' => while_true Cli.body (u :: rest) st'
            | Returned Break st' => Returned tt st'
            | Raised e st' => Raised e st'
            | Pending st' => Pending st'
            end).
    rewrite (cli_body_undecodable t st raw D).
    set (st1 := log _ (Cli.replied raw t st)).
    assert (M1 : message_history st1 = message_history st ++ [assistant raw]).
    { unfold st1. simpl. now rewrite called_history. }
    destruct (cli_body_trace u st1) as [prints Et].
    assert (C : exists later,
               trace (Cli.called (Cli.attempts u) st1)
               = trace st1 ++ Create (Cli.request (message_history st1)) :: later).
    { destruct (Cli.attempts u) as [| a answers]; [congruence |].
      destruct a as [reply | e]; simpl.
      - exists []. reflexivity.
      - destruct (PyStr.contains "429" e).
        + match goal with
          | |- context [Cli.called answers ?s] =>
              destruct (cli_called_trace_grows answers s) as [later E]
          end.
          rewrite E. simpl. rewrite <- !app_assoc. simpl.
          eexists. rewrite <- app_assoc. reflexivity.
        + exists []. reflexivity. }
    destruct C as [later C].
    assert (G : exists more,
               trace (state_of (while_true Cli.body (u :: rest) st1))
               = trace (state_of (Cli.body u st1)) ++ more).
    { simpl. destruct (Cli.body u st1) as [[|] s | e s | s]; simpl;
        try apply trace_grows_refl.
      apply (while_true_related Cli.body
               (fun a b => exists more, trace b = trace a ++ more)
               trace_grows_refl trace_grows_trans cli_body_trace_grows). }
    destruct G as [more G]. rewrite G, Et, C, M1.
    exists (trace st1), (later ++ map Print prints ++ more).
    rewrite <- !app_assoc. reflexivity.
Qed.

Lemma undecodable_reply_is_sent_back_witness :
  (exists before after,
      trace (state_of (while_true App.body
                         [Sample.app_says "not json"; Sample.app Sample.output]
                         App.initial))
      = before
          ++ Create (App.request (message_history App.initial ++ [assistant "not json"]))
          :: after) /\
  (exists before after,
      trace (state_of (while_true Cli.body
                         [Sample.cli_says "not json"; Sample.cli Sample.output]
                         Cli.initial))
      = before
          ++ Create (Cli.request (message_history Cli.initial ++ [assistant "not json"]))
          :: after).
Proof.
  split.
  - apply (proj1 undecodable_reply_is_sent_back). reflexivity.
  - apply (proj2 undecodable_reply_is_sent_back); [reflexivity | discriminate].
Defined.

(** ** The session *)

(** X6: a line that is [exit] in any letter case ends the session at once:
    [main] prints its farewell and returns None; memory is untouched, the
    model is not called, and what follows in the session is not read. *)
Theorem exit_ends_the_session :
  (forall q script rest st,
      PyStr.lower q = "exit" ->
      exists st',
        App.main ((Returns q, script) :: rest) st = Returned VNone st' /\
        message_history st' = message_history st /\
        requests (trace st') = requests (trace st) /\
        exists before, trace st' = before ++ [Print [Str "👋 Bye!"]]) /\
  (forall q script rest st,
      PyStr.lower q = "exit" ->
      exists st',
        Cli.main ((Returns q, script) :: rest) st = Returned VNone st' /\
        message_history st' = message_history st /\
        requests (trace st') = requests (trace st) /\
        exists before, trace st' = before ++ [Print [Str "👋 Bye Rohit!"]]).
Proof.
  split; intros q script rest st E.
  - unfold App.main, App.main_body. run. rewrite E. simpl.
    eexists. split; [reflexivity |]. split; [reflexivity |]. split.
    + unfold log. cbn [trace]. rewrite !requests_app.
      cbn [requests filter length]. lia.
    + eexists. reflexivity.
  - unfold Cli.main, Cli.main_body. run. rewrite E. simpl.
    eexists. split; [reflexivity |]. split; [reflexivity |]. split.
    + unfold log. cbn [trace]. rewrite !requests_app.
      cbn [requests filter length]. lia.
    + eexists. reflexivity.
Qed.

Lemma exit_ends_the_session_witness :
  (exists st',
      App.main [(Returns "EXIT", [Sample.app Sample.output]);
                (Returns "weather in Paris", [Sample.app Sample.output])] App.initial
      = Returned VNone st' /\
      message_history st' = message_history App.initial /\
      requests (trace st') = requests (trace App.initial) /\
      exists before, trace st' = before ++ [Print [Str "👋 Bye!"]]) /\
  (exists st',
      Cli.main [(Returns "Exit", [])] Cli.initial = Returned VNone st' /\
      message_history st' = message_history Cli.initial /\
      requests (trace st') = requests (trace Cli.initial) /\
      exists before, trace st' = before ++ [Print [Str "👋 Bye Rohit!"]]).
Proof.
  split.
  - apply (proj1 exit_ends_the_session). reflexivity.
  - apply (proj2 exit_ends_the_session). reflexivity.
Defined.

Lemma eqb_lower_exit (q : string) :
  PyStr.lower q <> "exit" -> String.eqb (PyStr.lower q) "exit" = false.
Proof. intros H. now apply String.eqb_neq. Qed.

(** X7: any other line, untrimmed, is the user's message of a run; when
    that run returns the session reads the next line with the memory the run
    left, and when it raises the exception ends the session. *)
Theorem session_runs_share_memory :
  (forall q script rest st,
      PyStr.lower q <> "exit" ->
      (exists suffix,
          message_history (state_of (while_true App.main_body ((Returns q, script) :: rest) st))
          = message_history st ++ {| role := "user"; content := q |} :: suffix) /\
      (forall v st',
          App.run_agent q script (log (Input "You: ") st) = Returned v st' ->
          while_true App.main_body ((Returns q, script) :: rest) st
          = while_true App.main_body rest st') /\
      (forall e st',
          App.run_agent q script (log (Input "You: ") st) = Raised e st' ->
          while_true App.main_body ((Returns q, script) :: rest) st = Raised e st')) /\
  (forall q script rest st,
      PyStr.lower q <> "exit" ->
      (exists suffix,
          message_history (state_of (while_true Cli.main_body ((Returns q, script) :: rest) st))
          = message_history st ++ {| role := "user"; content := q |} :: suffix) /\
      (forall v st',
          Cli.run_agent q script (log (Input "You: ") st) = Returned v st' ->
          while_true Cli.main_body ((Returns q, script) :: rest) st
          = while_true Cli.main_body rest st') /\
      (forall e st',
          Cli.run_agent q script (log (Input "You: ") st) = Raised e st' ->
          while_true Cli.main_body ((Returns q, script) :: rest) st = Raised e st')).
Proof.
  split; intros q script rest st N; apply eqb_lower_exit in N.
  - assert (U : while_true App.main_body ((Returns q, script) :: rest) st
                = match App.run_agent q script (log (Input "You: ") st) with
                  | Returned _ st' => while_true App.main_body rest st'
                  | Raised e st' => Raised e st'
                  | Pending st' => Pending st'
                  end).
    { cbn [while_true]. unfold App.main_body. run. rewrite N.
      now destruct (App.run_agent q script _). }
    split; [| split].
    + rewrite U.
      destruct (app_run_agent_dialogue q script (log (Input "You: ") st))
        as (suffix & E & _).
      destruct (App.run_agent q script (log (Input "You: ") st)) as [v s | e s | s];
        cbn [state_of] in E; try (exists suffix; exact E).
      destruct (while_true_extends App.main_body app_main_body_extends rest s)
        as (more & E' & _).
      exists (suffix ++ more). rewrite E', E. simpl. now rewrite <- app_assoc.
    + intros v st' R. now rewrite U, R.
    + intros e st' R. now rewrite U, R.
  - assert (U : while_true Cli.main_body ((Returns q, script) :: rest) st
                = match Cli.run_agent q script (log (Input "You: ") st) with
                  | Returned _ st' => while_true Cli.main_body rest st'
                  | Raised e st' => Raised e st'
                  | Pending st' => Pending st'
                  end).
    { cbn [while_true]. unfold Cli.main_body. run. rewrite N.
      now destruct (Cli.run_agent q script _). }
    split; [| split].
    + rewrite U.
      destruct (cli_run_agent_dialogue q script (log (Input "You: ") st))
        as (suffix & E & _).
      destruct (Cli.run_agent q script (log (Input "You: ") st)) as [v s | e s | s];
        cbn [state_of] in E; try (exists suffix; exact E).
      destruct (while_true_extends Cli.main_body cli_main_body_extends rest s)
        as (more & E' & _).
      exists (suffix ++ more). rewrite E', E. simpl. now rewrite <- app_assoc.
    + intros v st' R. now rewrite U, R.
    + intros e st' R. now rewrite U, R.
Qed.

Lemma session_runs_share_memory_witness :
  exists suffix,
    message_history
      (state_of (while_true App.main_body
                   [(Returns "exit ", [Sample.app Sample.output]);
                    (Returns "thanks", [Sample.app Sample.output])] App.initial))
    = message_history App.initial ++ {| role := "user"; content := "exit " |} :: suffix.
Proof.
  apply (proj1 session_runs_share_memory "exit " [Sample.app Sample.output]
           [(Returns "thanks", [Sample.app Sample.output])] App.initial).
  discriminate.
Defined.

(** ** Stripping *)

Lemma lstrip_head (s : string) :
  PyStr.lstrip s = EmptyString \/
  exists c s', PyStr.lstrip s = String c s' /\ PyStr.isspace c = false.
Proof.
  induction s as [| c s IH]; cbn [PyStr.lstrip]; [now left |].
  destruct (PyStr.isspace c) eqn:E; [exact IH |]. right. eauto.
Qed.

Lemma rstrip_idempotent (s : string) : PyStr.rstrip (PyStr.rstrip s) = PyStr.rstrip s.
Proof.
  induction s as [| c s IH]; cbn [PyStr.rstrip]; [reflexivity |].
  destruct (PyStr.rstrip s) as [| a r] eqn:E.
  - destruct (PyStr.isspace c) eqn:S; cbn [PyStr.rstrip]; [reflexivity | now rewrite S].
  - change (PyStr.rstrip (String c (String a r)))
      with (match PyStr.rstrip (String a r) with
            | EmptyString => if PyStr.isspace c then EmptyString else String c EmptyString
            | String x y => String c (String x y)
            end).
    now rewrite IH.
Qed.

Lemma lstrip_rstrip (c : ascii) (s : string) :
  PyStr.isspace c = false ->
  PyStr.lstrip (PyStr.rstrip (String c s)) = PyStr.rstrip (String c s).
Proof.
  intros S. cbn [PyStr.rstrip].
  destruct (PyStr.rstrip s); [rewrite S |]; cbn [PyStr.lstrip]; now rewrite S.
Qed.

Lemma strip_trimmed (s : string) :
  PyStr.lstrip (PyStr.strip s) = PyStr.strip s /\
  PyStr.rstrip (PyStr.strip s) = PyStr.strip s.
Proof.
  unfold PyStr.strip. split; [| apply rstrip_idempotent].
  destruct (lstrip_head s) as [E | (c & s' & E & S)]; rewrite E.
  - reflexivity.
  - now apply lstrip_rstrip.
Qed.

Lemma strip_idempotent (s : string) : PyStr.strip (PyStr.strip s) = PyStr.strip s.
Proof.
  destruct (strip_trimmed s) as [L R]. unfold PyStr.strip at 1. now rewrite L, R.
Qed.

(** ** The tools of cli.py *)

(** X8: when the command runs, [run_command] answers with its standard
    output, stripped; with its standard error, stripped, only when the
    output is empty; and with [Done.] when both are empty.  The answer has
    no leading or trailing whitespace; it is the empty string when what was
    captured is all whitespace. *)
Theorem run_command_answers_stripped_output :
  forall w cmd p,
    subprocess_run w cmd = Returns p ->
    exists r,
      Cli.run_command w cmd = Returns r /\
      PyStr.strip r = r /\
      (stdout p <> EmptyString -> r = PyStr.strip (stdout p)) /\
      (stdout p = EmptyString -> stderr p <> EmptyString -> r = PyStr.strip (stderr p)) /\
      (stdout p = EmptyString -> stderr p = EmptyString -> r = "Done.").
Proof.
  intros w cmd p H. unfold Cli.run_command, io_bind, try_except. rewrite H.
  destruct (stdout p) as [| a out] eqn:O; simpl.
  - destruct (stderr p) as [| b err] eqn:E; simpl.
    + exists "Done.". repeat split; try congruence.
    + eexists. split; [reflexivity |]. split; [apply strip_idempotent |].
      repeat split; congruence.
  - eexists. split; [reflexivity |]. split; [apply strip_idempotent |].
    repeat split; congruence.
Qed.

Lemma run_command_answers_stripped_output_witness :
  Cli.run_command Sample.sunny (VStr "true") = Returns "Done.".
Proof.
  destruct (run_command_answers_stripped_output Sample.sunny (VStr "true")
              {| stdout := EmptyString; stderr := EmptyString |} eq_refl)
    as (r & E & _ & _ & _ & D).
  rewrite E. f_equal. apply D; reflexivity.
Defined.

Lemma subscript_absent (d : list (string * value)) (key : string) :
  (forall v, ~ In (key, v) d) ->
  Cli.subscript (VDict d) key = Raises ("'" ++ key ++ "'").
Proof.
  intros H. unfold Cli.subscript.
  assert (F : find (fun kv : string * value => String.eqb (fst kv) key) d = None).
  { induction d as [| [k v] d IH]; simpl; [reflexivity |].
    destruct (String.eqb k key) eqn:E.
    - apply String.eqb_eq in E. subst. destruct (H v). now left.
    - apply IH. intros x Hx. apply (H x). now right. }
  now rewrite F.
Qed.

(** X9: [write_file] reports success only after the file was opened and
    written: its answer is the file name followed by [written successfully],
    the payload being a string that decodes to an object with a string
    [filename] and some [content], and the directory and the file having
    been made; otherwise it is [Write error:] followed by the text of the
    failure.  A payload without a [filename] is answered with the name of
    the missing key. *)
Theorem write_file_succeeds_or_explains :
  (forall w payload,
      (exists s data path content,
          payload = VStr s /\ json_loads w s = Returns data /\
          Cli.subscript data "filename" = Returns (VStr path) /\
          Cli.subscript data "content" = Returns content /\
          os_makedirs w (if PyStr.truthy (os_path_dirname w path)
                         then os_path_dirname w path else ".") = Returns tt /\
          open_write w path content = Returns tt /\
          Cli.write_file w payload = Returns (path ++ " written successfully")%string) \/
      (exists e, Cli.write_file w payload = Returns ("Write error: " ++ e)%string)) /\
  (forall w s d,
      json_loads w s = Returns (VDict d) ->
      (forall v, ~ In ("filename", v) d) ->
      Cli.write_file w (VStr s) = Returns "Write error: 'filename'").
Proof.
  split.
  - intros w payload. unfold Cli.write_file, io_bind, try_except.
    destruct payload as [| | | | s | |]; simpl; try (right; eauto; fail).
    destruct (json_loads w s) as [data | e] eqn:L; [| right; eauto].
    destruct (Cli.subscript data "filename") as [filename | e] eqn:F; [| right; eauto].
    destruct (Cli.subscript data "content") as [content | e] eqn:C; [| right; eauto].
    destruct filename as [| | | | path | |]; simpl; try (right; eauto; fail).
    destruct (os_makedirs w _) as [[] | e] eqn:Mk; [| right; eauto].
    destruct (open_write w path content) as [[] | e] eqn:W; [| right; eauto].
    left. exists s, data, path, content. repeat split; auto.
  - intros w s d L A. unfold Cli.write_file, io_bind, try_except. simpl.
    rewrite L. now rewrite (subscript_absent d "filename" A).
Qed.

Lemma write_file_succeeds_or_explains_witness :
  Cli.write_file Sample.sunny (VStr "{}") = Returns "Write error: 'filename'".
Proof.
  apply (proj2 write_file_succeeds_or_explains Sample.sunny "{}" []).
  - reflexivity.
  - intros v [].
Defined.

(** ** Observations *)

Lemma printable_app (s1 s2 : string) :
  printable (s1 ++ s2) = printable s1 && printable s2.
Proof.
  induction s1 as [| c s1 IH]; simpl; [reflexivity |].
  now rewrite IH, andb_assoc.
Qed.

Lemma escape_char_printable (c : ascii) : printable (PyStr.escape_char c) = true.
Proof.
  destruct c as [[] [] [] [] [] [] [] []]; reflexivity.
Qed.

Lemma escape_printable (s : string) : printable (PyStr.escape s) = true.
Proof.
  induction s as [| c s IH]; simpl; [reflexivity |].
  now rewrite printable_app, escape_char_printable, IH.
Qed.

Lemma quoted_printable (s : string) : printable (PyStr.quoted s) = true.
Proof.
  unfold PyStr.quoted. now rewrite !printable_app, escape_printable.
Qed.

(** X10: whatever a tool returned (line breaks, quotes, control or
    non-ASCII characters), the observation appended to memory is one line of
    printable ASCII. *)
Theorem observation_is_printable_ascii :
  forall name result, printable (content (observation (VStr name) result)) = true.
Proof.
  intros name result. unfold observation. cbn [content].
  change (json_dumps (VDict [ ("step", VStr "OBSERVE"); ("tool", VStr name);
                              ("output", VStr result) ]))
    with ("{" ++ (PyStr.quoted "step" ++ ": " ++ PyStr.quoted "OBSERVE" ++ ", "
                    ++ PyStr.quoted "tool" ++ ": " ++ PyStr.quoted name ++ ", "
                    ++ PyStr.quoted "output" ++ ": " ++ PyStr.quoted result) ++ "}")%string.
  rewrite !printable_app, !quoted_printable. reflexivity.
Qed.





(** ** The model call of cli.py, in general *)

Lemma settled_app answers extra a :
  Cli.settled answers = Some a ->
  Cli.settled (answers ++ extra) = Some a /\
  forall st, Cli.called (answers ++ extra) st = Cli.called answers st.
Proof.
  induction answers as [| [reply | e] rest IH]; simpl; [discriminate | auto |].
  destruct (PyStr.contains "429" e); [| auto].
  intros H. destruct (IH H) as [S C]. split; [exact S |]. intros st. apply C.
Qed.

Lemma backoff_events (h : list message) (k : nat) :
  Forall (fun ev => match ev with
                    | Create r => r = Cli.request h
                    | Sleep n => n = 5%Z
                    | Print _ => True
                    | Input _ => False
                    end) (concat (repeat (backoff h) k)).
Proof.
  induction k as [| k IH]; simpl; repeat constructor. exact IH.
Qed.

(** X12: whatever the service answers, [safe_llm_call] leaves memory as
    it found it; every request it sends is the same one, built from that
    memory; it sleeps 5 seconds at a time; and the answers that follow the one
    it ends on are not read. *)
Theorem safe_llm_call_repeats_one_request :
  (forall answers st,
      message_history (state_of (Cli.safe_llm_call answers st)) = message_history st /\
      exists evs,
        trace (state_of (Cli.safe_llm_call answers st)) = trace st ++ evs /\
        Forall (fun ev => match ev with
                          | Create r => r = Cli.request (message_history st)
                          | Sleep n => n = 5%Z
                          | Print _ => True
                          | Input _ => False
                          end) evs) /\
  (forall answers extra st,
      Cli.settled answers <> None ->
      Cli.safe_llm_call (answers ++ extra) st = Cli.safe_llm_call answers st).
Proof.
  split.
  - intros answers st.
    assert (S : state_of (Cli.safe_llm_call answers st) = Cli.called answers st).
    { rewrite safe_llm_call_settled. now destruct (Cli.settled answers) as [[|] |]. }
    rewrite S. split; [apply called_history |].
    rewrite called_waited. destruct (Cli.settled answers).
    + exists (concat (repeat (backoff (message_history st)) (retries answers))
                ++ [Create (Cli.request (message_history st))]).
      split; [unfold log, waited; simpl; now rewrite <- app_assoc |].
      apply Forall_app. split; [apply backoff_events | now repeat constructor].
    + eexists. split; [reflexivity | apply backoff_events].
  - intros answers extra st N.
    destruct (Cli.settled answers) as [a |] eqn:S; [| congruence].
    destruct (settled_app answers extra a S) as [S' C].
    now rewrite !safe_llm_call_settled, S, S', C.
Qed.

Lemma safe_llm_call_repeats_one_request_witness :
  Cli.safe_llm_call
    ([Raises Sample.rate_limited; Returns "first"] ++ [Returns "second"]) Cli.initial
  = Cli.safe_llm_call [Raises Sample.rate_limited; Returns "first"] Cli.initial.
Proof.
  apply (proj2 safe_llm_call_repeats_one_request). discriminate.
Defined.

(** ** What is kept of a reply *)

Lemma classify_raw (w : world) (raw : string) :
  classify w raw = Undecodable raw \/
  (exists v, classify w raw = NotObject raw v) \/
  (exists step, classify w raw = Decoded raw step).
Proof.
  unfold classify. destruct (json_loads w raw) as [[] |]; eauto.
Qed.

Lemma app_body_keeps_reply t st raw :
  (App.decode t = Undecodable raw \/
   (exists v, App.decode t = NotObject raw v) \/
   (exists step, App.decode t = Decoded raw step)) ->
  exists suffix,
    message_history (state_of (App.body t st))
    = message_history st ++ assistant raw :: suffix.
Proof.
  intros [D | [[v D] | [step D]]].
  - rewrite (app_body_undecodable t st raw D). exists []. reflexivity.
  - rewrite (app_body_not_object t st raw v D). exists []. reflexivity.
  - destruct (eq_str (dict_get step "step") "PLAN") eqn:P.
    { rewrite (app_body_plan t st raw step D P). exists []. reflexivity. }
    destruct (eq_str (dict_get step "step") "TOOL") eqn:K.
    { destruct (registered App.tools (dict_get step "tool")) eqn:R.
      - destruct (app_body_dispatch t st raw step D) as (name & f & result & _ & _ & _ & B).
        { simpl. now rewrite K, R. }
        rewrite B. eexists. simpl. rewrite <- app_assoc. reflexivity.
      - rewrite (app_body_tool_missing t st raw step D K R). exists []. reflexivity. }
    destruct (eq_str (dict_get step "step") "OUTPUT") eqn:O.
    { rewrite (app_body_output t st raw step D O). exists []. reflexivity. }
    rewrite (app_body_unrecognized t st raw step D); [exists []; reflexivity |].
    simpl. now rewrite P, K, O.
Qed.

Lemma cli_body_keeps_reply t st raw :
  (Cli.decode t = Undecodable raw \/
   (exists v, Cli.decode t = NotObject raw v) \/
   (exists step, Cli.decode t = Decoded raw step)) ->
  exists suffix,
    message_history (state_of (Cli.body t st))
    = message_history st ++ assistant raw :: suffix.
Proof.
  intros [D | [[v D] | [step D]]].
  - rewrite (cli_body_undecodable t st raw D). exists []. simpl. now rewrite called_history.
  - rewrite (cli_body_not_object t st raw v D). exists []. simpl. now rewrite called_history.
  - destruct (eq_str (dict_get step "step") "PLAN") eqn:P.
    { rewrite (cli_body_plan t st raw step D P). exists []. simpl. now rewrite called_history. }
    destruct (eq_str (dict_get step "step") "TOOL") eqn:K.
    { destruct (registered Cli.tools (dict_get step "tool")) eqn:R.
      - destruct (cli_body_dispatch t st raw step D) as (name & f & result & _ & _ & _ & B).
        { simpl. now rewrite K, R. }
        rewrite B. eexists. simpl. rewrite called_history, <- app_assoc. reflexivity.
      - rewrite (cli_body_tool_missing t st raw step D K R). exists []. simpl.
        now rewrite called_history. }
    destruct (eq_str (dict_get step "step") "OUTPUT") eqn:O.
    { rewrite (cli_body_output t st raw step D O). exists []. simpl.
      now rewrite called_history. }
    rewrite (cli_body_unrecognized t st raw step D);
      [exists []; simpl; now rewrite called_history |].
    simpl. now rewrite P, K, O.
Qed.

(** X13: whatever the model replied, and whether or not it can be decoded,
    what memory keeps of it is the reply stripped of leading and trailing
    whitespace (the empty string for a reply that is all whitespace). *)
Theorem reply_is_kept_stripped :
  (forall t st reply,
      App.created t = Returns reply ->
      (exists suffix,
          message_history (state_of (App.body t st))
          = message_history st ++ assistant (PyStr.strip reply) :: suffix) /\
      PyStr.lstrip (PyStr.strip reply) = PyStr.strip reply /\
      PyStr.rstrip (PyStr.strip reply) = PyStr.strip reply) /\
  (forall t st reply,
      Cli.settled (Cli.attempts t) = Some (Returns reply) ->
      (exists suffix,
          message_history (state_of (Cli.body t st))
          = message_history st ++ assistant (PyStr.strip reply) :: suffix) /\
      PyStr.lstrip (PyStr.strip reply) = PyStr.strip reply /\
      PyStr.rstrip (PyStr.strip reply) = PyStr.strip reply).
Proof.
  split; intros t st reply H; (split; [| apply strip_trimmed]).
  - apply app_body_keeps_reply. unfold App.decode. rewrite H. apply classify_raw.
  - apply cli_body_keeps_reply. unfold Cli.decode. rewrite H. apply classify_raw.
Qed.

Lemma reply_is_kept_stripped_witness :
  (exists suffix,
      message_history
        (state_of (App.body (Sample.app_says (PyStr.nl ++ "  not json " ++ PyStr.nl))
                     App.initial))
      = message_history App.initial
          ++ assistant (PyStr.strip (PyStr.nl ++ "  not json " ++ PyStr.nl)) :: suffix) /\
  PyStr.strip (PyStr.nl ++ "  not json " ++ PyStr.nl) = "not json".
Proof.
  split; [| reflexivity].
  apply (proj1 reply_is_kept_stripped
           (Sample.app_says (PyStr.nl ++ "  not json " ++ PyStr.nl)) App.initial).
  reflexivity.
Defined.
